(** * Stocker: the analytics of [app.py]

    A shallow embedding of the Streamlit script [app.py]: the quote record
    returned by the data provider is a Python dict, the price history is a
    frame of daily bars, and the page is the sequence of widgets the script
    emits.  Numbers are idealised IEEE doubles: a finite value is an exact
    rational, and the three special values are kept because the script can
    produce them (pandas yields NaN for the maximum of an empty column, NumPy
    yields an infinity or NaN for a division by zero).  Rounding, overflow and
    the sign of zero are not modelled. *)

From Stdlib Require Import QArith Qfield Lqa Ascii String.
From stdpp Require Import gmap strings list.

Local Open Scope Q_scope.

(** ** Numbers *)

Module Num.

Inductive num : Type :=
| Fin (q : Q)
| PInf
| NInf
| NaN.

Inductive sign : Type := Neg | Zero | Pos.

Definition Qsign (q : Q) : sign :=
  match q ?= 0 with
  | Lt => Neg
  | Eq => Zero
  | Gt => Pos
  end.

Definition sign_mul (s t : sign) : sign :=
  match s, t with
  | Zero, _ | _, Zero => Zero
  | Pos, Pos | Neg, Neg => Pos
  | Pos, Neg | Neg, Pos => Neg
  end.

(** The infinity of a given sign; the undetermined case is NaN. *)
Definition inf_of (s : sign) : num :=
  match s with
  | Pos => PInf
  | Neg => NInf
  | Zero => NaN
  end.

Definition is_nan (x : num) : bool :=
  match x with NaN => true | _ => false end.

Definition is_zero (x : num) : bool :=
  match x with Fin q => Qeq_bool q 0 | _ => false end.

Definition sub (x y : num) : num :=
  match x, y with
  | NaN, _ | _, NaN => NaN
  | Fin a, Fin b => Fin (a - b)
  | Fin _, PInf => NInf
  | Fin _, NInf => PInf
  | PInf, PInf => NaN
  | PInf, _ => PInf
  | NInf, NInf => NaN
  | NInf, _ => NInf
  end.

Definition mul (x y : num) : num :=
  match x, y with
  | NaN, _ | _, NaN => NaN
  | Fin a, Fin b => Fin (a * b)
  | Fin a, PInf | PInf, Fin a => inf_of (Qsign a)
  | Fin a, NInf | NInf, Fin a => inf_of (sign_mul Neg (Qsign a))
  | PInf, PInf | NInf, NInf => PInf
  | PInf, NInf | NInf, PInf => NInf
  end.

(** IEEE division, total: this is what NumPy's scalar [/] computes (a zero
    divisor gives an infinity or NaN and a warning, never an exception). *)
Definition div (x y : num) : num :=
  match x, y with
  | NaN, _ | _, NaN => NaN
  | Fin a, Fin b => if Qeq_bool b 0 then inf_of (Qsign a) else Fin (a / b)
  | Fin _, (PInf | NInf) => Fin 0
  | PInf, Fin b => if Qeq_bool b 0 then PInf else inf_of (Qsign b)
  | NInf, Fin b => if Qeq_bool b 0 then NInf else inf_of (sign_mul Neg (Qsign b))
  | (PInf | NInf), (PInf | NInf) => NaN
  end.

(** [x < y] and [x <= y]; every comparison with NaN is false. *)
Definition ltb (x y : num) : bool :=
  match x, y with
  | NaN, _ | _, NaN => false
  | Fin a, Fin b => negb (Qle_bool b a)
  | _, NInf => false
  | NInf, _ => true
  | PInf, _ => false
  | _, PInf => true
  end.

Definition leb (x y : num) : bool :=
  match x, y with
  | NaN, _ | _, NaN => false
  | Fin a, Fin b => Qle_bool a b
  | NInf, _ => true
  | _, PInf => true
  | _, NInf => false
  | PInf, _ => false
  end.

Definition max (x y : num) : num := if ltb x y then y else x.

(** Two numbers denote the same value (rationals up to [Qeq]). *)
Definition same (x y : num) : Prop :=
  match x, y with
  | Fin a, Fin b => a == b
  | PInf, PInf | NInf, NInf | NaN, NaN => True
  | _, _ => False
  end.

End Num.

Export Num.

Notation "x ≃ y" := (Num.same x y) (at level 70, no associativity).

Coercion Fin : Q >-> num.

Local Open Scope string_scope.
Local Open Scope list_scope.

(** ** Python values, dicts and exceptions *)

Inductive pyval : Type :=
| PyNone
| PyNum (x : num)
| PyStr (s : string).

Inductive exn : Type :=
| TypeError
| KeyError (key : string)
| ZeroDivisionError
| ProviderError (msg : string).

(** A computation that returns or raises. *)
Definition exc (A : Type) : Type := exn + A.

Definition raise {A} (e : exn) : exc A := inl e.

#[global] Instance exc_ret : MRet exc := λ A a, inr a.

#[global] Instance exc_bind : MBind exc := λ A B k m,
  match m with
  | inl e => inl e
  | inr a => k a
  end.

Abbreviation dict := (gmap string pyval).

(** [d.get(key, dflt)] *)
Definition get (d : dict) (key : string) (dflt : pyval) : pyval :=
  default dflt (d !! key).

(** [d[key]] *)
Definition subscript (d : dict) (key : string) : exc pyval :=
  match d !! key with
  | Some v => mret v
  | None => raise (KeyError key)
  end.

(** Truth value of a Python object. *)
Definition truthy (v : pyval) : bool :=
  match v with
  | PyNone => false
  | PyNum x => negb (Num.is_zero x)
  | PyStr s => negb (bool_decide (s = ""))
  end.

Definition is_None (v : pyval) : bool :=
  match v with PyNone => true | _ => false end.

(** Python's [/] on two floats: a zero divisor raises. *)
Definition py_truediv (x y : num) : exc num :=
  if Num.is_zero y then raise ZeroDivisionError else mret (Num.div x y).

(** ** The price history frame *)

(** One row of the frame returned by [stock.history].  The frame has its
    price columns also when it has no rows, so that [hist['High']] is always
    a column. *)
Record Bar : Type := { High : num; Low : num; Volume : num }.

Abbreviation DataFrame := (list Bar).

(** [hist[col]] *)
Definition column (col : Bar → num) (hist : DataFrame) : list num :=
  map col hist.

(** [Series.max()] of pandas, with its default [skipna=True]: missing values
    are left out, and the maximum of nothing is NaN. *)
Definition Series_max (s : list num) : num :=
  match List.filter (λ x, negb (Num.is_nan x)) s with
  | [] => NaN
  | x :: xs => fold_left Num.max xs x
  end.

(** ** Price metrics (lines 58 to 65) *)

Record PriceMetrics : Type := {
  current_price : num;
  previous_close : num;
  price_change : num;
  percent_change : num;
  high_60d : num;
  drop_from_high : num
}.

(** [info.get('currentPrice', info.get('regularMarketPrice', 0))] *)
Definition current_price_of (info : dict) : pyval :=
  get info "currentPrice" (get info "regularMarketPrice" (PyNum 0)).

(** [info.get('previousClose', 0)] *)
Definition previous_close_of (info : dict) : pyval :=
  get info "previousClose" (PyNum 0).

(** The first operation on the two prices is their difference, which raises
    [TypeError] unless both are numbers.  The quotient of line 61 is a
    division of Python floats; the one of line 65 has the NumPy scalar
    [high_60d] as an operand and is NumPy's. *)
Definition price_metrics (info : dict) (hist : DataFrame) : exc PriceMetrics :=
  match current_price_of info, previous_close_of info with
  | PyNum current_price, PyNum previous_close =>
      let price_change := Num.sub current_price previous_close in
      percent_change ←
        (if truthy (PyNum previous_close)
         then q ← py_truediv price_change previous_close; mret (Num.mul q 100)
         else mret (Fin 0));
      let high_60d := Series_max (column High hist) in
      let drop_from_high :=
        Num.mul (Num.div (Num.sub current_price high_60d) high_60d) 100 in
      mret {| current_price := current_price;
              previous_close := previous_close;
              price_change := price_change;
              percent_change := percent_change;
              high_60d := high_60d;
              drop_from_high := drop_from_high |}
  | _, _ => raise TypeError
  end.

(** ** The page: widgets and the script's monad *)

(** What the script puts on the page.  An f-string is kept as the values it
    interpolates; number formatting, the page configuration, the input box
    and the layout containers (columns, the expander) belong to the display
    and are not modelled. *)
Inductive widget : Type :=
| st_title (body : string)
| st_caption (body : string)
| st_header (longName symbol : pyval)
| st_subheader (body : string)
| st_metric (label : string) (value : num) (delta : list num)
| st_info (body : pyval)
| st_divider
| st_markdown (body : string)
| st_markdown_item (title publisher : pyval)
| st_write (body : string)
| st_write_sentiment (sentiment_label sentiment_emoji : string) (score : Q)
| st_markdown_deals (plain_symbol : string)
| st_error (body : string)
| st_error_occurred (e : exn)
| st_warning (body : string).

(** A run of script code: the widgets emitted so far, and a value or the
    exception that stopped it. *)
Definition ui (A : Type) : Type := list widget * exc A.

#[global] Instance ui_ret : MRet ui := λ A a, ([], inr a).

#[global] Instance ui_bind : MBind ui := λ A B k m,
  match m with
  | (out, inl e) => (out, inl e)
  | (out, inr a) => let '(out', r) := k a in (out ++ out', r)
  end.

Definition emit (w : widget) : ui unit := ([w], inr tt).

Definition lift {A} (m : exc A) : ui A := ([], m).

(** [for x in l: body(x)] *)
Fixpoint for_each {A} (l : list A) (body : A → ui unit) : ui unit :=
  match l with
  | [] => mret tt
  | x :: l' => body x ≫= λ _, for_each l' body
  end.

(** ** Strings *)

Definition upper_ascii (c : Ascii.ascii) : Ascii.ascii :=
  let n := Ascii.nat_of_ascii c in
  if (97 <=? n)%nat && (n <=? 122)%nat then Ascii.ascii_of_nat (n - 32) else c.

(** [s.upper()], on ASCII letters. *)
Fixpoint upper (s : string) : string :=
  match s with
  | EmptyString => EmptyString
  | String c s' => String (upper_ascii c) (upper s')
  end.

(** [s.split('.')[0]] *)
Fixpoint before_dot (s : string) : string :=
  match s with
  | EmptyString => EmptyString
  | String c s' => if Ascii.eqb c "."%char then EmptyString else String c (before_dot s')
  end.

(** ** The script *)

(** The provider's handle for one ticker, [yf.Ticker(symbol)]: each access
    fetches and may fail. *)
Record Ticker : Type := {
  Ticker_info : exc dict;
  Ticker_history : string → exc DataFrame;
  Ticker_news : exc (list dict)
}.

Section App.

(** The two collaborators: the data provider and the compound score of the
    sentiment engine, [analyzer.polarity_scores(text)['compound']]. *)
Variable yf_Ticker : string → Ticker.
Variable polarity_compound : string → Q.

(** Lines 21 to 27.  The cache decorator memoises a function without effects
    and is transparent here. *)
Definition get_stock_data (ticker_symbol : string)
  : exc (dict * DataFrame * list dict) :=
  let stock := yf_Ticker ticker_symbol in
  info ← Ticker_info stock;
  hist ← Ticker_history stock "3mo";
  news ← Ticker_news stock;
  mret (info, hist, news).

(** Lines 29 to 37. *)
Definition get_sentiment (text : string) : string * string * Q :=
  let score := polarity_compound text in
  if Qle_bool 0.05 score then ("Positive", "😊", score)
  else if Qle_bool score (-0.05) then ("Negative", "😟", score)
  else ("Neutral", "😐", score).

(** Lines 86 to 91, the body of the loop over the news items.  The engine
    takes text; for a title that is not a string it fails. *)
Definition news_item (item : dict) : ui unit :=
  title ← lift (subscript item "title");
  publisher ← lift (subscript item "publisher");
  text ← lift (match title with PyStr s => mret s | _ => raise TypeError end);
  let '(sentiment_label, sentiment_emoji, score) := get_sentiment text in
  emit (st_markdown_item title publisher);;
  emit (st_write_sentiment sentiment_label sentiment_emoji score);;
  emit (st_markdown "---").

(** Lines 82 to 93. *)
Definition news_section (news : list dict) : ui unit :=
  emit (st_subheader "📰 Recent News & Sentiment");;
  if bool_decide (news = [])
  then emit (st_write "No recent news found.")
  else for_each (take 5 news) news_item.

(** Lines 49 to 104, the body of the [try]. *)
Definition page (ticker : string) : ui unit :=
  '(info, hist, news) ← lift (get_stock_data ticker);
  if bool_decide (info = ∅) || is_None (get info "longName" PyNone)
  then
    emit (st_error ("Invalid Ticker: '" +:+ ticker +:+
      "'. Please check the symbol and exchange (e.g., use .NS for NSE)."))
  else
    emit (st_header (get info "longName" (PyStr "N/A"))
                    (get info "symbol" (PyStr "N/A")));;
    m ← lift (price_metrics info hist);
    emit (st_metric "Current Price" (current_price m)
            [price_change m; percent_change m]);;
    emit (st_metric "60-Day High" (high_60d m) [drop_from_high m]);;
    market_cap ← lift (match get info "marketCap" (PyNum 0) with
                       | PyNum cap => py_truediv cap 1e7
                       | _ => raise TypeError
                       end);
    emit (st_metric "Market Cap" market_cap []);;
    emit st_divider;;
    emit (st_subheader "🏢 Core Competence");;
    emit (st_info (get info "longBusinessSummary"
                     (PyStr "No business summary available.")));;
    news_section news;;
    emit st_divider;;
    emit (st_subheader "💼 Top Investor Activity (Bulk & Block Deals)");;
    emit (st_info (PyStr
      "Please check the official NSE website for the most accurate data."));;
    emit (st_markdown_deals (before_dot ticker)).

(** The whole script, one run for the text typed into the ticker box: the
    [try] turns any exception into an error banner and a warning. *)
Definition app (text_input : string) : list widget :=
  let ticker := upper text_input in
  [st_title "🇮🇳 Personal Stock Analyzer";
   st_caption "A personalized tool to analyze price drops and market sentiment."]
  ++ (if truthy (PyStr ticker)
      then match page ticker with
           | (out, inr _) => out
           | (out, inl e) =>
               out ++ [st_error_occurred e;
                       st_warning "This could be due to an invalid ticker or a network issue. Please try again."]
           end
      else [])
  ++ [st_divider;
      st_caption "Disclaimer: This is an informational tool, not financial advice. Always do your own research (DYOR)."].

End App.

(** ** Observing a page *)

(** The value and delta of the first metric with a given label. *)
Fixpoint metric_of (label : string) (out : list widget) : option (num * list num) :=
  match out with
  | [] => None
  | st_metric l value delta :: out' =>
      if String.eqb l label then Some (value, delta) else metric_of label out'
  | _ :: out' => metric_of label out'
  end.

(** The display name and symbol of the first header. *)
Fixpoint header_of (out : list widget) : option (pyval * pyval) :=
  match out with
  | [] => None
  | st_header longName symbol :: _ => Some (longName, symbol)
  | _ :: out' => header_of out'
  end.

Definition is_banner (w : widget) : bool :=
  match w with
  | st_error _ | st_error_occurred _ | st_warning _ => true
  | _ => false
  end.

(** The error banners and warnings of a page. *)
Definition banners (out : list widget) : list widget := List.filter is_banner out.

(** The sentiment lines of a page, in order. *)
Fixpoint sentiments (out : list widget) : list (string * string * Q) :=
  match out with
  | [] => []
  | st_write_sentiment l e s :: out' => (l, e, s) :: sentiments out'
  | _ :: out' => sentiments out'
  end.

(** ** Records as the provider sends them *)

(** An item the loop body can process: it has a title that is text, and a
    publisher entry, whatever its value. *)
Definition well_formed_item (item : dict) : Prop :=
  ∃ title publisher,
    item !! "title" = Some (PyStr title) ∧ item !! "publisher" = Some publisher.

(** The headline of an item. *)
Definition title_of (item : dict) : string :=
  match item !! "title" with
  | Some (PyStr title) => title
  | _ => ""
  end.

(** The record the script rejects: empty, or without a display name. *)
Definition invalid_record (info : dict) : Prop :=
  info = ∅ ∨ info !! "longName" = None ∨ info !! "longName" = Some PyNone.

(** A history as the data model has it: every bar has a positive, finite
    high. *)
Definition positive_highs (hist : DataFrame) : Prop :=
  Forall (λ b, ∃ q : Q, High b = Fin q ∧ 0 < q) hist.

(** ** Reading the output of the script *)

(** The three widgets the loop shows for an item that has its two entries
    and a title that is text. *)
Definition item_widgets (engine : string → Q) (item : dict) : list widget :=
  let '(sentiment_label, sentiment_emoji, score) :=
    get_sentiment engine (title_of item) in
  [st_markdown_item (get item "title" PyNone) (get item "publisher" PyNone);
   st_write_sentiment sentiment_label sentiment_emoji score;
   st_markdown "---"].

(** The labels in the order of their scores. *)
Definition label_rank (sentiment_label : string) : nat :=
  if String.eqb sentiment_label "Negative" then 0
  else if String.eqb sentiment_label "Neutral" then 1
  else 2.

(** The label of the opposite sentiment. *)
Definition opposite_label (sentiment_label : string) : string :=
  if String.eqb sentiment_label "Positive" then "Negative"
  else if String.eqb sentiment_label "Negative" then "Positive"
  else sentiment_label.

(** ** Sample data *)

Definition bar_of_high (h : Q) : Bar :=
  {| High := Fin h; Low := Fin h; Volume := Fin 0 |}.

Definition reliance : dict :=
  <["longName" := PyStr "Reliance Industries Limited"]>
  (<["symbol" := PyStr "RELIANCE.NS"]>
  (<["currentPrice" := PyNum (Fin 2500)]>
  (<["previousClose" := PyNum (Fin 2400)]> ∅))).

(** The same record without its ticker symbol. *)
Definition reliance_no_symbol : dict := delete "symbol" reliance.

(** A record without [currentPrice] that carries [regularMarketPrice]. *)
Definition reliance_market_price : dict :=
  <["longName" := PyStr "Reliance Industries Limited"]>
  (<["symbol" := PyStr "RELIANCE.NS"]>
  (<["regularMarketPrice" := PyNum (Fin 50)]>
  (<["previousClose" := PyNum (Fin 40)]> ∅))).

(** A record without a display name. *)
Definition unnamed_record : dict := delete "longName" reliance.

(** A record whose current price is there, with None. *)
Definition reliance_unpriced : dict := <["currentPrice" := PyNone]> reliance.

(** A record with a market capitalisation, and one where it is None. *)
Definition reliance_capitalised : dict :=
  <["marketCap" := PyNum (Fin 170000000000000)]> reliance.

Definition reliance_uncapitalised : dict := <["marketCap" := PyNone]> reliance.

(** A record with neither price. *)
Definition reliance_no_prices : dict :=
  <["longName" := PyStr "Reliance Industries Limited"]>
  (<["symbol" := PyStr "RELIANCE.NS"]> ∅).

Definition scenario_history : DataFrame :=
  [bar_of_high 2600; bar_of_high 2550; bar_of_high 2500].

Definition headline (title publisher : string) : dict :=
  <["title" := PyStr title]> (<["publisher" := PyStr publisher]> ∅).

(** An item whose publisher is not known: the key is there, with None. *)
Definition unattributed (title : string) : dict :=
  <["title" := PyStr title]> (<["publisher" := PyNone]> ∅).

Definition seven_headlines : list dict :=
  [headline "Company beats earnings expectations" "Wire";
   headline "Shares slump on weak guidance" "Wire";
   unattributed "Board meets on Tuesday";
   headline "Record profit lifts outlook" "Desk";
   headline "Regulator opens probe" "Wire";
   headline "Sixth headline" "Desk";
   headline "Seventh headline" "Desk"].

(** A provider that answers every symbol with the same data. *)
Definition fixed_provider (info : dict) (hist : DataFrame) (news : list dict)
  : string → Ticker :=
  λ _, {| Ticker_info := mret info;
          Ticker_history := λ _, mret hist;
          Ticker_news := mret news |}.

(** A scoring engine for the sample headlines. *)
Definition sample_engine (text : string) : Q :=
  if String.eqb text "Company beats earnings expectations" then 0.6
  else if String.eqb text "Shares slump on weak guidance" then -0.5
  else if String.eqb text "Record profit lifts outlook" then 0.05
  else if String.eqb text "Regulator opens probe" then -0.05
  else 0.

(** * Properties *)

(** ** Numbers *)

Lemma is_zero_Fin (q : Q) : Num.is_zero (Fin q) = true ↔ q == 0.
Proof. apply Qeq_bool_iff. Qed.

Lemma is_zero_Fin_false (q : Q) : ¬ q == 0 → Num.is_zero (Fin q) = false.
Proof.
  intros Hq. destruct (Num.is_zero (Fin q)) eqn:E; [|reflexivity].
  apply is_zero_Fin in E. contradiction.
Qed.

Lemma same_refl (x : num) : x ≃ x.
Proof. destruct x; simpl; auto with qarith. Qed.

(** The percentage of a finite difference over a finite non-zero base. *)
Lemma percent_of_Fin (a b : Q) :
  ¬ b == 0 →
  Num.mul (Num.div (Num.sub (Fin a) (Fin b)) (Fin b)) (Fin 100)
  = Fin ((a - b) / b * 100).
Proof.
  intros Hb. simpl.
  destruct (Qeq_bool b 0) eqn:E; [|reflexivity].
  apply Qeq_bool_iff in E. contradiction.
Qed.

Lemma percent_nonpos (a b : Q) : 0 < b → a <= b → (a - b) / b * 100 <= 0.
Proof.
  intros Hb Hab.
  assert (Hd : a - b <= 0) by (apply (Qplus_le_l _ _ b); ring_simplify; exact Hab).
  assert (Hi : 0 <= / b) by (apply Qlt_le_weak, Qinv_lt_0_compat, Hb).
  assert (Hq : (a - b) / b <= 0).
  { apply Qle_trans with (0 * / b).
    - apply Qmult_le_compat_r; assumption.
    - rewrite Qmult_0_l. apply Qle_refl. }
  apply Qle_trans with (0 * 100).
  - apply Qmult_le_compat_r; [exact Hq | discriminate].
  - rewrite Qmult_0_l. apply Qle_refl.
Qed.

(** ** The guarded division of line 61 *)

(** Python's division is only reached with a non-zero divisor, so it
    returns. *)
Lemma guarded_truediv (x y : num) :
  (if truthy (PyNum y)
   then q ← py_truediv x y; mret (Num.mul q 100)
   else mret (Fin 0) : exc num)
  = mret (if Num.is_zero y then Fin 0 else Num.mul (Num.div x y) 100).
Proof.
  unfold py_truediv. simpl. destruct (Num.is_zero y); reflexivity.
Qed.

(** With numeric prices the metrics are computed, whatever the history. *)
Lemma price_metrics_numeric (info : dict) (hist : DataFrame) (cp pc : num) :
  current_price_of info = PyNum cp →
  previous_close_of info = PyNum pc →
  price_metrics info hist = mret
    {| current_price := cp;
       previous_close := pc;
       price_change := Num.sub cp pc;
       percent_change :=
         if Num.is_zero pc then Fin 0
         else Num.mul (Num.div (Num.sub cp pc) pc) 100;
       high_60d := Series_max (column High hist);
       drop_from_high :=
         Num.mul (Num.div (Num.sub cp (Series_max (column High hist)))
                          (Series_max (column High hist))) 100 |}.
Proof.
  intros Hcp Hpc. unfold price_metrics. rewrite Hcp, Hpc.
  rewrite guarded_truediv. reflexivity.
Qed.

(** The only exception the metrics can raise is [TypeError]. *)
Lemma price_metrics_raises (info : dict) (hist : DataFrame) (e : exn) :
  price_metrics info hist = raise e → e = TypeError.
Proof.
  unfold price_metrics.
  destruct (current_price_of info) as [|cp|]; try (intros [= <-]; reflexivity).
  destruct (previous_close_of info) as [|pc|]; try (intros [= <-]; reflexivity).
  rewrite guarded_truediv. discriminate.
Qed.

(** ** Percent change and drawdown *)

(** C5: with numeric prices the metrics are computed without an exception;
    the percent change is 0 when the previous close is zero, whatever the
    current price, and ((currentPrice - previousClose) / previousClose) * 100
    when it is not. *)
Theorem percent_change_guarded (info : dict) (hist : DataFrame) (cp : num) (pc : Q) :
  current_price_of info = PyNum cp →
  previous_close_of info = PyNum (Fin pc) →
  ∃ m, price_metrics info hist = mret m ∧
       (pc == 0 → percent_change m = Fin 0) ∧
       (∀ c : Q, cp = Fin c → ¬ pc == 0 →
          percent_change m ≃ Fin ((c - pc) / pc * 100)).
Proof.
  intros Hcp Hpc. eexists. split; [apply (price_metrics_numeric _ _ _ _ Hcp Hpc)|].
  cbn [percent_change]. split.
  - intros Hz. apply is_zero_Fin in Hz. rewrite Hz. reflexivity.
  - intros c -> Hnz. rewrite (is_zero_Fin_false _ Hnz), (percent_of_Fin _ _ Hnz).
    apply same_refl.
Qed.

Lemma percent_change_guarded_witness :
  current_price_of reliance = PyNum (Fin 2500) ∧
  previous_close_of reliance = PyNum (Fin 2400) ∧
  ∃ m, price_metrics reliance scenario_history = mret m ∧
       (2400 == 0 → percent_change m = Fin 0) ∧
       (∀ c : Q, Fin 2500 = Fin c → ¬ 2400 == 0 →
          percent_change m ≃ Fin ((c - 2400) / 2400 * 100)).
Proof.
  split; [reflexivity|]. split; [reflexivity|].
  apply (percent_change_guarded reliance scenario_history (Fin 2500) 2400);
    reflexivity.
Defined.

(** Line 65 is not guarded: with numeric prices the metrics are computed,
    and the drawdown is ((currentPrice - periodHigh) / periodHigh) * 100
    whenever the period high is non-zero.  No run raises a division-by-zero
    error, the division being NumPy's. *)
Lemma drawdown_formula (info : dict) (hist : DataFrame) (cp pc : num) :
  current_price_of info = PyNum cp →
  previous_close_of info = PyNum pc →
  price_metrics info hist ≠ raise ZeroDivisionError ∧
  ∃ m, price_metrics info hist = mret m ∧
       (∀ c h : Q, cp = Fin c → high_60d m = Fin h → ¬ h == 0 →
          drop_from_high m ≃ Fin ((c - h) / h * 100)).
Proof.
  intros Hcp Hpc. split.
  - intros H. apply price_metrics_raises in H. discriminate.
  - eexists. split; [apply (price_metrics_numeric _ _ _ _ Hcp Hpc)|].
    cbn [high_60d drop_from_high]. intros c h -> -> Hnz.
    rewrite (percent_of_Fin _ _ Hnz). apply same_refl.
Qed.

(** C1, where the code departs from it: the drawdown is to be 0 when the
    period high is zero, as the percent change of line 61 is for a zero
    previous close.  Line 65 has no such guard: on a history whose only high
    is 0, a price of 2500 has the drawdown +inf, and the page shows it. *)
Theorem drawdown_zero_high :
  (∃ m, price_metrics reliance [bar_of_high 0] = mret m ∧
        high_60d m ≃ Fin 0 ∧
        drop_from_high m = PInf ∧
        ¬ drop_from_high m ≃ Fin 0) ∧
  metric_of "60-Day High"
    (app (fixed_provider reliance [bar_of_high 0] []) sample_engine "RELIANCE.NS")
  = Some (Fin 0, [PInf]).
Proof.
  split; [|vm_compute; reflexivity].
  eexists. split; [reflexivity|]. cbn. repeat split; auto.
Qed.

(** C2, as amended: on an empty history the metrics are computed with no
    exception; the period high is NaN, the maximum pandas gives for an empty
    column, and so is the drawdown. *)
Theorem empty_history_yields_nan (info : dict) (cp pc : num) :
  current_price_of info = PyNum cp →
  previous_close_of info = PyNum pc →
  ∃ m, price_metrics info [] = mret m ∧
       high_60d m = NaN ∧ drop_from_high m = NaN.
Proof.
  intros Hcp Hpc. eexists. split; [apply (price_metrics_numeric _ _ _ _ Hcp Hpc)|].
  cbn. split; [reflexivity|]. destruct cp; reflexivity.
Qed.

Lemma empty_history_yields_nan_witness :
  current_price_of reliance = PyNum (Fin 2500) ∧
  previous_close_of reliance = PyNum (Fin 2400) ∧
  ∃ m, price_metrics reliance [] = mret m ∧
       high_60d m = NaN ∧ drop_from_high m = NaN.
Proof.
  split; [reflexivity|]. split; [reflexivity|].
  apply (empty_history_yields_nan reliance (Fin 2500) (Fin 2400)); reflexivity.
Defined.

(** C2 fails as stated: on an empty history nothing is raised.  The metrics
    come back with NaN for the period high and the drawdown, and the page
    shows them with no error banner. *)
Lemma empty_history_counterexample :
  (∀ e, price_metrics reliance [] ≠ raise e) ∧
  (∃ m, price_metrics reliance [] = mret m ∧
        high_60d m = NaN ∧ drop_from_high m = NaN) ∧
  metric_of "60-Day High"
    (app (fixed_provider reliance [] []) sample_engine "RELIANCE.NS")
  = Some (NaN, [NaN]) ∧
  banners (app (fixed_provider reliance [] []) sample_engine "RELIANCE.NS") = [].
Proof.
  split; [discriminate|]. split; [|split; reflexivity].
  eexists. split; [reflexivity|]. split; reflexivity.
Qed.

(** ** Absent prices *)

(** C7, as amended: the metrics of a record without a previous close are
    those of the record with a previous close of 0; the metrics of a record
    without a current price are those of the record with its regular market
    price as the current price when it has one, and with a current price of
    0 when it has neither. *)
Theorem absent_prices_substituted (info : dict) (hist : DataFrame) :
  (info !! "previousClose" = None →
     price_metrics info hist
     = price_metrics (<["previousClose" := PyNum (Fin 0)]> info) hist) ∧
  (info !! "currentPrice" = None →
     ∀ v, info !! "regularMarketPrice" = Some v →
     price_metrics info hist
     = price_metrics (<["currentPrice" := v]> info) hist) ∧
  (info !! "currentPrice" = None →
     info !! "regularMarketPrice" = None →
     price_metrics info hist
     = price_metrics (<["currentPrice" := PyNum (Fin 0)]> info) hist).
Proof.
  unfold price_metrics, current_price_of, previous_close_of, get.
  split; [|split].
  - intros H. rewrite H, lookup_insert_eq.
    rewrite !lookup_insert_ne by discriminate. reflexivity.
  - intros H v Hv. rewrite H, Hv, lookup_insert_eq.
    rewrite !lookup_insert_ne by discriminate. reflexivity.
  - intros H H'. rewrite H, H', lookup_insert_eq.
    rewrite !lookup_insert_ne by discriminate. reflexivity.
Qed.

Lemma absent_prices_substituted_witness :
  (reliance_no_prices !! "previousClose" = None ∧
   price_metrics reliance_no_prices scenario_history
   = price_metrics (<["previousClose" := PyNum (Fin 0)]> reliance_no_prices)
       scenario_history) ∧
  (reliance_market_price !! "currentPrice" = None ∧
   reliance_market_price !! "regularMarketPrice" = Some (PyNum (Fin 50)) ∧
   price_metrics reliance_market_price scenario_history
   = price_metrics (<["currentPrice" := PyNum (Fin 50)]> reliance_market_price)
       scenario_history) ∧
  (reliance_no_prices !! "currentPrice" = None ∧
   reliance_no_prices !! "regularMarketPrice" = None ∧
   price_metrics reliance_no_prices scenario_history
   = price_metrics (<["currentPrice" := PyNum (Fin 0)]> reliance_no_prices)
       scenario_history).
Proof.
  split; [|split].
  - split; [reflexivity|].
    apply (proj1 (absent_prices_substituted reliance_no_prices scenario_history)).
    reflexivity.
  - split; [reflexivity|]. split; [reflexivity|].
    apply (proj1 (proj2
      (absent_prices_substituted reliance_market_price scenario_history)));
      reflexivity.
  - split; [reflexivity|]. split; [reflexivity|].
    apply (proj2 (proj2
      (absent_prices_substituted reliance_no_prices scenario_history)));
      reflexivity.
Defined.

(** C7 fails as stated: for a record without [currentPrice] whose
    [regularMarketPrice] is 50 the current price is 50, not 0. *)
Lemma absent_current_price_counterexample :
  reliance_market_price !! "currentPrice" = None ∧
  ∃ m, price_metrics reliance_market_price scenario_history = mret m ∧
       current_price m = Fin 50 ∧
       ¬ current_price m ≃ Fin 0 ∧
       price_change m ≃ Fin 10.
Proof.
  split; [reflexivity|]. eexists. split; [reflexivity|].
  cbn. repeat split; [discriminate].
Qed.

(** ** Order and maximum *)

Lemma leb_refl (x : num) : Num.is_nan x = false → Num.leb x x = true.
Proof.
  destruct x; simpl; try reflexivity; try discriminate.
  intros _. apply Qle_bool_iff, Qle_refl.
Qed.

Lemma leb_trans (x y z : num) :
  Num.leb x y = true → Num.leb y z = true → Num.leb x z = true.
Proof.
  destruct x, y, z; simpl; try reflexivity; try discriminate.
  rewrite !Qle_bool_iff. apply Qle_trans.
Qed.

Lemma max_choice (x y : num) : Num.max x y = x ∨ Num.max x y = y.
Proof. unfold Num.max. destruct (Num.ltb x y); auto. Qed.

Lemma leb_max_l (x y : num) :
  Num.is_nan x = false → Num.leb x (Num.max x y) = true.
Proof.
  intros Hx. unfold Num.max. destruct (Num.ltb x y) eqn:E.
  - destruct x, y; simpl in *; try reflexivity; try discriminate.
    apply Qle_bool_iff. apply negb_true_iff in E.
    destruct (Qlt_le_dec q q0) as [H|H]; [apply Qlt_le_weak, H|].
    apply Qle_bool_iff in H. congruence.
  - apply leb_refl, Hx.
Qed.

Lemma leb_max_r (x y : num) :
  Num.is_nan x = false → Num.is_nan y = false →
  Num.leb y (Num.max x y) = true.
Proof.
  intros Hx Hy. unfold Num.max. destruct (Num.ltb x y) eqn:E.
  - apply leb_refl, Hy.
  - destruct x, y; simpl in *; try reflexivity; try discriminate.
    apply negb_false_iff in E. exact E.
Qed.

(** Folding [max] over numbers that are not NaN: the result is one of them
    and bounds them all. *)
Lemma fold_max_spec (xs : list num) (x : num) :
  Num.is_nan x = false →
  Forall (λ y, Num.is_nan y = false) xs →
  let r := fold_left Num.max xs x in
  r ∈ x :: xs ∧ ∀ y, y ∈ x :: xs → Num.leb y r = true.
Proof.
  revert x. induction xs as [|a xs IH]; intros x Hx Hall; simpl.
  - split; [left|]. intros y Hy. apply list_elem_of_singleton in Hy as ->.
    apply leb_refl, Hx.
  - apply Forall_cons in Hall as [Ha Hall].
    assert (Hm : Num.is_nan (Num.max x a) = false)
      by (destruct (max_choice x a) as [-> | ->]; assumption).
    destruct (IH (Num.max x a) Hm Hall) as [Hin Hub]. split.
    + apply elem_of_cons in Hin as [Hin|Hin].
      * rewrite Hin. destruct (max_choice x a) as [-> | ->];
          [left | right; left].
      * right; right; exact Hin.
    + intros y Hy.
      assert (Htop : Num.leb (Num.max x a) (fold_left Num.max xs (Num.max x a)) = true)
        by (apply Hub; left).
      apply elem_of_cons in Hy as [-> | Hy].
      * apply leb_trans with (Num.max x a); [apply leb_max_l, Hx | exact Htop].
      * apply elem_of_cons in Hy as [-> | Hy].
        -- apply leb_trans with (Num.max x a); [apply leb_max_r; assumption | exact Htop].
        -- apply Hub. right; exact Hy.
Qed.

(** The maximum of a column bounds every value that is not NaN. *)
Lemma Series_max_upper (s : list num) (x : num) :
  x ∈ s → Num.is_nan x = false → Num.leb x (Series_max s) = true.
Proof.
  intros Hin Hx. unfold Series_max.
  assert (Hf : x ∈ List.filter (λ x, negb (Num.is_nan x)) s).
  { apply list_elem_of_In, filter_In. split; [apply list_elem_of_In, Hin|].
    rewrite Hx. reflexivity. }
  assert (Hall : Forall (λ y, Num.is_nan y = false)
                   (List.filter (λ x, negb (Num.is_nan x)) s)).
  { apply Forall_forall. intros y Hy. apply list_elem_of_In, filter_In in Hy as [_ Hy].
    apply negb_true_iff, Hy. }
  destruct (List.filter (λ x, negb (Num.is_nan x)) s) as [|a xs].
  - apply elem_of_nil in Hf. contradiction.
  - apply Forall_cons in Hall as [Ha Hall].
    apply (fold_max_spec xs a Ha Hall), Hf.
Qed.

(** When some value is not NaN the maximum is one of the values. *)
Lemma Series_max_attained (s : list num) (x : num) :
  x ∈ s → Num.is_nan x = false →
  Series_max s ∈ s ∧ Num.is_nan (Series_max s) = false.
Proof.
  intros Hin Hx. unfold Series_max.
  assert (Hf : x ∈ List.filter (λ x, negb (Num.is_nan x)) s).
  { apply list_elem_of_In, filter_In. split; [apply list_elem_of_In, Hin|].
    rewrite Hx. reflexivity. }
  assert (Hsub : ∀ y, y ∈ List.filter (λ x, negb (Num.is_nan x)) s →
                      y ∈ s ∧ Num.is_nan y = false).
  { intros y Hy. apply list_elem_of_In, filter_In in Hy as [Hy Hn].
    split; [apply list_elem_of_In, Hy | apply negb_true_iff, Hn]. }
  destruct (List.filter (λ x, negb (Num.is_nan x)) s) as [|a xs].
  - apply elem_of_nil in Hf. contradiction.
  - apply Hsub.
    apply (fold_max_spec xs a).
    + apply Hsub. left.
    + apply Forall_forall. intros y Hy. apply Hsub. right; exact Hy.
Qed.

(** ** The script's monad *)

Lemma emit_then {A} (w : widget) (k : unit → ui A) :
  (emit w ≫= k) = (w :: (k tt).1, (k tt).2).
Proof. unfold emit, mbind, ui_bind. destruct (k tt); reflexivity. Qed.

Lemma lift_ret_then {A B} (a : A) (k : A → ui B) :
  (lift (mret a) ≫= k) = k a.
Proof. unfold lift, mbind, mret, exc_ret, ui_bind. destruct (k a); reflexivity. Qed.

(** ** Validation of the fetched record *)

Section Page.

Context (yf_Ticker : string → Ticker) (polarity_compound : string → Q).

Lemma invalid_record_test (info : dict) :
  invalid_record info ↔
  bool_decide (info = ∅) || is_None (get info "longName" PyNone) = true.
Proof.
  unfold invalid_record, get. rewrite orb_true_iff, bool_decide_eq_true.
  split.
  - intros [H|[H|H]]; [left; exact H | right; rewrite H; reflexivity ..].
  - intros [H|H]; [left; exact H | right].
    destruct (info !! "longName") as [[| |]|]; try discriminate; auto.
Qed.

Lemma page_invalid (ticker : string) info hist news :
  get_stock_data yf_Ticker ticker = mret (info, hist, news) →
  invalid_record info →
  page yf_Ticker polarity_compound ticker =
    ([st_error ("Invalid Ticker: '" +:+ ticker +:+
        "'. Please check the symbol and exchange (e.g., use .NS for NSE).")],
     mret tt).
Proof.
  intros Hget Hinv. apply invalid_record_test in Hinv.
  unfold page. rewrite Hget, lift_ret_then.
  rewrite Hinv. reflexivity.
Qed.

(** A record that is not rejected gets its header first. *)
Lemma page_header (ticker : string) info hist news :
  get_stock_data yf_Ticker ticker = mret (info, hist, news) →
  ¬ invalid_record info →
  ∃ rest r,
    page yf_Ticker polarity_compound ticker =
      (st_header (get info "longName" (PyStr "N/A"))
                 (get info "symbol" (PyStr "N/A")) :: rest, r).
Proof.
  intros Hget Hval. rewrite invalid_record_test in Hval.
  apply not_true_is_false in Hval.
  unfold page. rewrite Hget, lift_ret_then, Hval, emit_then.
  eexists _, _. reflexivity.
Qed.

(** A valid record with numeric prices: the header and the two price metrics
    come first, whatever follows. *)
Lemma page_valid (ticker : string) info hist news m :
  get_stock_data yf_Ticker ticker = mret (info, hist, news) →
  ¬ invalid_record info →
  price_metrics info hist = mret m →
  ∃ rest r,
    page yf_Ticker polarity_compound ticker =
      (st_header (get info "longName" (PyStr "N/A"))
                 (get info "symbol" (PyStr "N/A"))
       :: st_metric "Current Price" (current_price m)
            [price_change m; percent_change m]
       :: st_metric "60-Day High" (high_60d m) [drop_from_high m]
       :: rest, r).
Proof.
  intros Hget Hval Hm. rewrite invalid_record_test in Hval.
  apply not_true_is_false in Hval.
  unfold page. rewrite Hget, lift_ret_then.
  rewrite Hval, emit_then, Hm, lift_ret_then, !emit_then.
  eexists _, _. reflexivity.
Qed.

(** The page of a run whose input is not blank, from the run of its [try]
    body. *)
Lemma app_of_page (text_input : string) :
  upper text_input ≠ "" →
  app yf_Ticker polarity_compound text_input =
    [st_title "🇮🇳 Personal Stock Analyzer";
     st_caption "A personalized tool to analyze price drops and market sentiment."]
    ++ (match page yf_Ticker polarity_compound (upper text_input) with
        | (out, inr _) => out
        | (out, inl e) =>
            out ++ [st_error_occurred e;
                    st_warning "This could be due to an invalid ticker or a network issue. Please try again."]
        end)
    ++ [st_divider;
        st_caption "Disclaimer: This is an informational tool, not financial advice. Always do your own research (DYOR)."].
Proof.
  intros Hne. unfold app. cbn [truthy].
  rewrite (bool_decide_eq_false_2 _ Hne). reflexivity.
Qed.

(** C3, as amended: when the fetched record is empty or has no display name
    (absent, or None), the script shows the invalid-ticker error, raises
    nothing and computes no metric.  An absent ticker symbol is not an
    error: a record that has a display name is given its header, with N/A
    for a missing symbol, and, its prices being numbers, its metrics. *)
Theorem invalid_ticker_reported (text_input : string) info hist news :
  upper text_input ≠ "" →
  get_stock_data yf_Ticker (upper text_input) = mret (info, hist, news) →
  (invalid_record info →
     app yf_Ticker polarity_compound text_input =
       [st_title "🇮🇳 Personal Stock Analyzer";
        st_caption "A personalized tool to analyze price drops and market sentiment.";
        st_error ("Invalid Ticker: '" +:+ upper text_input +:+
          "'. Please check the symbol and exchange (e.g., use .NS for NSE).");
        st_divider;
        st_caption "Disclaimer: This is an informational tool, not financial advice. Always do your own research (DYOR)."]
     ∧ ∀ label, metric_of label (app yf_Ticker polarity_compound text_input) = None) ∧
  (¬ invalid_record info →
     header_of (app yf_Ticker polarity_compound text_input)
     = Some (get info "longName" (PyStr "N/A"), get info "symbol" (PyStr "N/A")) ∧
     ∀ cp pc, current_price_of info = PyNum cp →
              previous_close_of info = PyNum pc →
       ∃ m, price_metrics info hist = mret m ∧
            metric_of "60-Day High" (app yf_Ticker polarity_compound text_input)
            = Some (high_60d m, [drop_from_high m])).
Proof.
  intros Hne Hget. split.
  - intros Hinv.
    assert (Happ := app_of_page text_input Hne).
    rewrite (page_invalid _ _ _ _ Hget Hinv) in Happ.
    rewrite Happ. split; [reflexivity|]. intros label. reflexivity.
  - intros Hval. rewrite (app_of_page text_input Hne). split.
    + destruct (page_header _ _ _ _ Hget Hval) as (rest & r & ->).
      destruct r; reflexivity.
    + intros cp pc Hcp Hpc.
      pose proof (price_metrics_numeric info hist cp pc Hcp Hpc) as Hm.
      eexists. split; [exact Hm|].
      destruct (page_valid _ _ _ _ _ Hget Hval Hm) as (rest & r & ->).
      destruct r; reflexivity.
Qed.

(** C10: the history the metrics are computed from is the frame fetched for
    the period 3mo, whole.  The 60-day-high metric of the page is the maximum
    over that frame: every bar of it with a high is at most the metric, and
    the metric is the high of one of its bars. *)
Theorem period_high_over_whole_fetch (text_input : string) info hist news (cp pc : num) :
  upper text_input ≠ "" →
  Ticker_info (yf_Ticker (upper text_input)) = mret info →
  Ticker_history (yf_Ticker (upper text_input)) "3mo" = mret hist →
  Ticker_news (yf_Ticker (upper text_input)) = mret news →
  ¬ invalid_record info →
  current_price_of info = PyNum cp →
  previous_close_of info = PyNum pc →
  ∃ high drop,
    metric_of "60-Day High" (app yf_Ticker polarity_compound text_input)
    = Some (high, [drop]) ∧
    high = Series_max (column High hist) ∧
    drop = Num.mul (Num.div (Num.sub cp high) high) 100 ∧
    (∀ b, b ∈ hist → Num.is_nan (High b) = false →
          Num.leb (High b) high = true) ∧
    (∀ b, b ∈ hist → Num.is_nan (High b) = false →
          ∃ b', b' ∈ hist ∧ High b' = high).
Proof.
  intros Hne Hinfo Hhist Hnews Hval Hcp Hpc.
  assert (Hget : get_stock_data yf_Ticker (upper text_input) = mret (info, hist, news)).
  { unfold get_stock_data. rewrite Hinfo. cbn. rewrite Hhist. cbn.
    rewrite Hnews. reflexivity. }
  pose proof (price_metrics_numeric info hist cp pc Hcp Hpc) as Hm.
  rewrite (app_of_page text_input Hne).
  destruct (page_valid _ _ _ _ _ Hget Hval Hm) as (rest & r & ->).
  eexists _, _. split; [destruct r; reflexivity|]. cbn [high_60d drop_from_high].
  split; [reflexivity|]. split; [reflexivity|]. split.
  - intros b Hb Hn. apply Series_max_upper; [|exact Hn].
    apply list_elem_of_fmap. exists b. split; [reflexivity | exact Hb].
  - intros b Hb Hn.
    destruct (Series_max_attained (column High hist) (High b)) as [Hin _];
      [apply list_elem_of_fmap; exists b; split; [reflexivity | exact Hb] | exact Hn |].
    apply list_elem_of_fmap in Hin as (b' & Heq & Hb'). exists b'. split; [exact Hb' | symmetry; exact Heq].
Qed.

End Page.

Lemma invalid_ticker_reported_witness :
  let provider := fixed_provider unnamed_record scenario_history [] in
  let provider' := fixed_provider reliance_no_symbol scenario_history [] in
  (upper "reliance.ns" ≠ "" ∧
   invalid_record unnamed_record ∧
   banners (app provider sample_engine "reliance.ns")
   = [st_error "Invalid Ticker: 'RELIANCE.NS'. Please check the symbol and exchange (e.g., use .NS for NSE)."] ∧
   ∀ label, metric_of label (app provider sample_engine "reliance.ns") = None) ∧
  (¬ invalid_record reliance_no_symbol ∧
   header_of (app provider' sample_engine "reliance.ns")
   = Some (get reliance_no_symbol "longName" (PyStr "N/A"),
           get reliance_no_symbol "symbol" (PyStr "N/A")) ∧
   ∃ m, price_metrics reliance_no_symbol scenario_history = mret m ∧
        metric_of "60-Day High" (app provider' sample_engine "reliance.ns")
        = Some (high_60d m, [drop_from_high m])).
Proof.
  intros provider provider'.
  assert (Hne : upper "reliance.ns" ≠ "") by (vm_compute; discriminate).
  assert (Hinv : invalid_record unnamed_record)
    by (right; left; vm_compute; reflexivity).
  assert (Hval : ¬ invalid_record reliance_no_symbol)
    by (rewrite invalid_record_test; vm_compute; discriminate).
  assert (Hget : get_stock_data provider (upper "reliance.ns")
                 = mret (unnamed_record, scenario_history, [])) by reflexivity.
  assert (Hget' : get_stock_data provider' (upper "reliance.ns")
                  = mret (reliance_no_symbol, scenario_history, [])) by reflexivity.
  split.
  - split; [exact Hne|]. split; [exact Hinv|].
    destruct (proj1 (invalid_ticker_reported provider sample_engine "reliance.ns"
                unnamed_record scenario_history [] Hne Hget) Hinv) as [Happ Hnone].
    split; [rewrite Happ; reflexivity | exact Hnone].
  - split; [exact Hval|].
    destruct (proj2 (invalid_ticker_reported provider' sample_engine "reliance.ns"
                reliance_no_symbol scenario_history [] Hne Hget') Hval)
      as [Hheader Hmetrics].
    split; [exact Hheader|].
    exact (Hmetrics (Fin 2500) (Fin 2400) eq_refl eq_refl).
Defined.

(** C3 fails as stated: a record without a ticker symbol that has a display
    name is not rejected.  The page has no error banner, its header shows N/A
    for the symbol, and the metrics are computed. *)
Lemma absent_symbol_counterexample :
  let out := app (fixed_provider reliance_no_symbol scenario_history [])
               sample_engine "reliance.ns" in
  reliance_no_symbol !! "symbol" = None ∧
  banners out = [] ∧
  header_of out = Some (PyStr "Reliance Industries Limited", PyStr "N/A") ∧
  metric_of "Current Price" out = Some (Fin 2500, [Fin 100; Fin (10000 # 2400)]) ∧
  metric_of "60-Day High" out = Some (Fin 2600, [Fin (-10000 # 2600)]).
Proof. cbv zeta. repeat split; vm_compute; reflexivity. Qed.

Lemma period_high_over_whole_fetch_witness :
  let provider := fixed_provider reliance scenario_history seven_headlines in
  upper "reliance.ns" ≠ "" ∧
  ¬ invalid_record reliance ∧
  ∃ high drop,
    metric_of "60-Day High" (app provider sample_engine "reliance.ns")
    = Some (high, [drop]) ∧
    high = Series_max (column High scenario_history) ∧
    drop = Num.mul (Num.div (Num.sub (Fin 2500) high) high) 100 ∧
    (∀ b, b ∈ scenario_history → Num.is_nan (High b) = false →
          Num.leb (High b) high = true) ∧
    (∀ b, b ∈ scenario_history → Num.is_nan (High b) = false →
          ∃ b', b' ∈ scenario_history ∧ High b' = high).
Proof.
  intros provider.
  assert (Hne : upper "reliance.ns" ≠ "") by (vm_compute; discriminate).
  assert (Hval : ¬ invalid_record reliance)
    by (rewrite invalid_record_test; vm_compute; discriminate).
  split; [exact Hne|]. split; [exact Hval|].
  exact (period_high_over_whole_fetch provider sample_engine "reliance.ns"
           reliance scenario_history seven_headlines (Fin 2500) (Fin 2400)
           Hne eq_refl eq_refl eq_refl Hval eq_refl eq_refl).
Defined.

(** ** Sentiment *)

Section Sentiment.

Context (polarity_compound : string → Q).

Lemma get_sentiment_score (text : string) :
  (get_sentiment polarity_compound text).2 = polarity_compound text.
Proof.
  unfold get_sentiment.
  destruct (Qle_bool 0.05 _); [|destruct (Qle_bool _ (-0.05))]; reflexivity.
Qed.

(** The three cases of the thresholding, by the position of the score. *)
Lemma get_sentiment_cases (text : string) :
  let score := polarity_compound text in
  (0.05 <= score ∧
     get_sentiment polarity_compound text = ("Positive", "😊", score)) ∨
  (score <= -0.05 ∧
     get_sentiment polarity_compound text = ("Negative", "😟", score)) ∨
  (-0.05 < score ∧ score < 0.05 ∧
     get_sentiment polarity_compound text = ("Neutral", "😐", score)).
Proof.
  unfold get_sentiment. cbv zeta.
  destruct (Qle_bool 0.05 (polarity_compound text)) eqn:Hpos.
  - left. split; [apply Qle_bool_iff, Hpos | reflexivity].
  - destruct (Qle_bool (polarity_compound text) (-0.05)) eqn:Hneg.
    + right; left. split; [apply Qle_bool_iff, Hneg | reflexivity].
    + right; right. repeat split.
      * apply Qnot_le_lt. rewrite <- Qle_bool_iff. congruence.
      * apply Qnot_le_lt. rewrite <- Qle_bool_iff. congruence.
Qed.

End Sentiment.

(** C4: the label is Positive exactly when the score is at least 0.05,
    Negative exactly when it is at most -0.05, and Neutral exactly in
    between; the scores 0.05 and -0.05 themselves are Positive and Negative,
    and 0.049999 and 0 are Neutral. *)
Theorem sentiment_thresholds (engine : string → Q) (text : string) :
  let score := engine text in
  let label := (get_sentiment engine text).1.1 in
  (label = "Positive" ↔ 0.05 <= score) ∧
  (label = "Negative" ↔ score <= -0.05) ∧
  (label = "Neutral" ↔ -0.05 < score ∧ score < 0.05) ∧
  (get_sentiment (λ _, 0.05) text).1.1 = "Positive" ∧
  (get_sentiment (λ _, -0.05) text).1.1 = "Negative" ∧
  (get_sentiment (λ _, 0.049999) text).1.1 = "Neutral" ∧
  (get_sentiment (λ _, 0) text).1.1 = "Neutral".
Proof.
  cbv zeta.
  destruct (get_sentiment_cases engine text)
    as [[Hs ->] | [[Hs ->] | (Hlo & Hhi & ->)]]; cbn [fst];
    (split; [|split; [|split; [|repeat split]]]);
    (split; [try discriminate | try lra]); try reflexivity; intros; lra.
Qed.

(** C9: the score handed back is the engine's score for the text, as it is,
    and the label and emoji depend on that score alone: two calls whose
    scores are equal give the same label and emoji, whatever the texts and
    the engines. *)
Theorem sentiment_from_score_alone (engine engine' : string → Q) (text text' : string) :
  engine text == engine' text' →
  (get_sentiment engine text).2 = engine text ∧
  (get_sentiment engine text).1 = (get_sentiment engine' text').1.
Proof.
  intros Heq. split; [apply get_sentiment_score|].
  assert (Hpos : Qle_bool 0.05 (engine text) = Qle_bool 0.05 (engine' text'))
    by (rewrite Heq; reflexivity).
  assert (Hneg : Qle_bool (engine text) (-0.05) = Qle_bool (engine' text') (-0.05))
    by (rewrite Heq; reflexivity).
  unfold get_sentiment. rewrite Hpos, Hneg. clear Hpos Hneg.
  destruct (Qle_bool 0.05 (engine' text')),
           (Qle_bool (engine' text') (-0.05)); reflexivity.
Qed.

Lemma sentiment_from_score_alone_witness :
  sample_engine "Record profit lifts outlook" == (λ _, 5 # 100) "Any other text" ∧
  (get_sentiment sample_engine "Record profit lifts outlook").2
  = sample_engine "Record profit lifts outlook" ∧
  (get_sentiment sample_engine "Record profit lifts outlook").1
  = (get_sentiment (λ _, 5 # 100) "Any other text").1.
Proof.
  split; [reflexivity|].
  apply (sentiment_from_score_alone sample_engine (λ _, 5 # 100)
           "Record profit lifts outlook" "Any other text").
  reflexivity.
Defined.

(** ** The news loop *)

Section News.

Context (polarity_compound : string → Q).

(** One well-formed item: its three widgets, the middle one being the
    sentiment of its own title. *)
Lemma news_item_well_formed (item : dict) :
  well_formed_item item →
  (news_item polarity_compound item).2 = mret tt ∧
  sentiments (news_item polarity_compound item).1
  = [get_sentiment polarity_compound (title_of item)].
Proof.
  intros (title & publisher & Ht & Hp).
  unfold news_item, subscript, title_of. rewrite Ht, Hp, !lift_ret_then.
  destruct (get_sentiment polarity_compound title) as [[l e] s].
  split; reflexivity.
Qed.

Lemma sentiments_app (out out' : list widget) :
  sentiments (out ++ out') = sentiments out ++ sentiments out'.
Proof.
  induction out as [|w out IH]; [reflexivity|].
  destruct w; simpl; rewrite ?IH; reflexivity.
Qed.

Lemma for_each_news (items : list dict) :
  Forall well_formed_item items →
  (for_each items (news_item polarity_compound)).2 = mret tt ∧
  sentiments (for_each items (news_item polarity_compound)).1
  = map (λ item, get_sentiment polarity_compound (title_of item)) items.
Proof.
  induction 1 as [|item items Hwf _ [IHr IHs]]; [split; reflexivity|].
  destruct (news_item_well_formed item Hwf) as [Hr Hs].
  cbn [for_each map]. unfold mbind, ui_bind.
  destruct (news_item polarity_compound item) as [out r]. cbn [fst snd] in Hr, Hs.
  rewrite Hr. unfold mret, exc_ret.
  destruct (for_each items (news_item polarity_compound)) as [out' r'].
  cbn [fst snd] in *. split; [exact IHr|].
  rewrite sentiments_app, Hs, IHs. reflexivity.
Qed.

End News.

(** C8, as amended: for every news list whose first five items each have a
    title that is text and a publisher entry, the news section completes,
    and the sentiments it shows are those of the first five headlines, in
    order, each computed from its own title; there are five of them, or as
    many as the list has if that is fewer.  Items after the fifth are never
    looked at. *)
Theorem first_five_classified (engine : string → Q) (news : list dict) :
  Forall well_formed_item (take 5 news) →
  (news_section engine news).2 = mret tt ∧
  sentiments (news_section engine news).1
  = map (λ item, get_sentiment engine (title_of item)) (take 5 news) ∧
  length (sentiments (news_section engine news).1) = min 5 (length news).
Proof.
  intros Hwf.
  assert (Hrun : (news_section engine news).2 = mret tt ∧
                 sentiments (news_section engine news).1
                 = map (λ item, get_sentiment engine (title_of item)) (take 5 news)).
  { unfold news_section. rewrite emit_then. cbn [fst snd sentiments].
    case_bool_decide as Hnews.
    - subst news. split; reflexivity.
    - apply for_each_news, Hwf. }
  destruct Hrun as [Hr Hs]. split; [exact Hr|]. split; [exact Hs|].
  rewrite Hs, length_map, length_take. reflexivity.
Qed.

Lemma first_five_classified_witness :
  Forall well_formed_item (take 5 seven_headlines) ∧
  (news_section sample_engine seven_headlines).2 = mret tt ∧
  sentiments (news_section sample_engine seven_headlines).1
  = map (λ item, get_sentiment sample_engine (title_of item))
      (take 5 seven_headlines) ∧
  length (sentiments (news_section sample_engine seven_headlines).1)
  = min 5 (length seven_headlines).
Proof.
  assert (Hwf : Forall well_formed_item (take 5 seven_headlines)).
  { repeat constructor; eexists _, _; split; reflexivity. }
  split; [exact Hwf|].
  exact (first_five_classified sample_engine seven_headlines Hwf).
Defined.

(** C8 fails as stated: a headline whose item has no publisher entry is not
    classified, and neither are the ones after it.  Alone in the list it
    leaves no sentiment; after two sound items, of three headlines only two
    are classified, on the section and on the whole page. *)
Lemma missing_publisher_counterexample :
  let item := <["title" := PyStr "Board meets on Tuesday"]> (∅ : dict) in
  let news := take 2 seven_headlines ++ [item] in
  item !! "title" = Some (PyStr "Board meets on Tuesday") ∧
  item !! "publisher" = None ∧
  (news_section sample_engine [item]).2 = raise (KeyError "publisher") ∧
  sentiments (news_section sample_engine [item]).1 = [] ∧
  min 5 (length [item]) = 1%nat ∧
  (news_section sample_engine news).2 = raise (KeyError "publisher") ∧
  length (sentiments (news_section sample_engine news).1) = 2%nat ∧
  min 5 (length news) = 3%nat ∧
  length (sentiments (app (fixed_provider reliance scenario_history news)
                          sample_engine "reliance.ns")) = 2%nat.
Proof. cbv zeta. repeat split; vm_compute; reflexivity. Qed.

(** ** The period high *)

(** C6: on a non-empty history whose highs are positive, with numeric
    prices, the period high is the maximum of the highs: it is the high of
    one of the bars and no bar has a higher one.  The drawdown is at most 0
    whenever the current price is at most the period high. *)
Theorem period_high_is_maximum (info : dict) (hist : DataFrame) (cp pc : num) :
  hist ≠ [] →
  positive_highs hist →
  current_price_of info = PyNum cp →
  previous_close_of info = PyNum pc →
  ∃ m, price_metrics info hist = mret m ∧
       (∃ b, b ∈ hist ∧ High b = high_60d m) ∧
       (∀ b, b ∈ hist → Num.leb (High b) (high_60d m) = true) ∧
       (Num.leb cp (high_60d m) = true →
        Num.leb (drop_from_high m) (Fin 0) = true).
Proof.
  intros Hne Hpos Hcp Hpc.
  eexists. split; [apply (price_metrics_numeric _ _ _ _ Hcp Hpc)|].
  cbn [high_60d drop_from_high].
  assert (Hnn : ∀ b, b ∈ hist → Num.is_nan (High b) = false).
  { intros b Hb. apply (proj1 (Forall_forall _ _) Hpos) in Hb as (q & -> & _).
    reflexivity. }
  assert (Hcol : ∀ b, b ∈ hist → High b ∈ column High hist).
  { intros b Hb. apply list_elem_of_fmap. exists b. split; [reflexivity | exact Hb]. }
  destruct hist as [|b0 hist']; [contradiction|].
  assert (Hb0 : b0 ∈ b0 :: hist') by left.
  destruct (Series_max_attained _ _ (Hcol b0 Hb0) (Hnn b0 Hb0)) as [Hin _].
  apply list_elem_of_fmap in Hin as (b & Hhigh & Hb).
  split; [exists b; split; [exact Hb | symmetry; exact Hhigh]|].
  split; [intros b' Hb'; apply Series_max_upper; [apply Hcol, Hb' | apply Hnn, Hb']|].
  rewrite Hhigh.
  apply (proj1 (Forall_forall _ _) Hpos) in Hb as (h & -> & Hh).
  assert (Hnz : ¬ h == 0) by (intros Hz; rewrite Hz in Hh; discriminate).
  destruct cp as [c| | |]; simpl; try discriminate.
  - intros Hle. apply Qle_bool_iff in Hle.
    destruct (Qeq_bool h 0) eqn:E; [apply Qeq_bool_iff in E; contradiction|].
    apply Qle_bool_iff, percent_nonpos; assumption.
  - intros _.
    destruct (Qeq_bool h 0) eqn:E; [apply Qeq_bool_iff in E; contradiction|].
    unfold Num.Qsign. apply Qgt_alt in Hh. rewrite Hh. reflexivity.
Qed.

Lemma period_high_is_maximum_witness :
  scenario_history ≠ [] ∧
  positive_highs scenario_history ∧
  ∃ m, price_metrics reliance scenario_history = mret m ∧
       (∃ b, b ∈ scenario_history ∧ High b = high_60d m) ∧
       (∀ b, b ∈ scenario_history → Num.leb (High b) (high_60d m) = true) ∧
       (Num.leb (Fin 2500) (high_60d m) = true →
        Num.leb (drop_from_high m) (Fin 0) = true).
Proof.
  assert (Hne : scenario_history ≠ []) by discriminate.
  assert (Hpos : positive_highs scenario_history).
  { repeat constructor; eexists; split; reflexivity. }
  split; [exact Hne|]. split; [exact Hpos|].
  exact (period_high_is_maximum reliance scenario_history (Fin 2500) (Fin 2400)
           Hne Hpos eq_refl eq_refl).
Defined.

(** ** The scenarios of the specification *)

(** Scenario A: a price of 2500 over a close of 2400, with highs 2600, 2550
    and 2500: the change is 100, that is 25/6 percent, and the drawdown from
    the high of 2600 is -50/13 percent. *)
Example scenario_A :
  ∃ m, price_metrics reliance scenario_history = mret m ∧
       price_change m ≃ Fin 100 ∧
       percent_change m ≃ Fin (25 # 6) ∧
       high_60d m ≃ Fin 2600 ∧
       drop_from_high m ≃ Fin (-50 # 13).
Proof. eexists. split; [reflexivity|]. repeat split. Qed.

(** Scenario B: with both prices 0 the percent change is 0. *)
Example scenario_B :
  ∃ m, price_metrics reliance_no_prices scenario_history = mret m ∧
       current_price m = Fin 0 ∧ previous_close m = Fin 0 ∧
       percent_change m = Fin 0.
Proof. eexists. split; [reflexivity|]. repeat split. Qed.

(** Scenario D: a headline scored 0.6 is Positive, with that score. *)
Example scenario_D :
  get_sentiment sample_engine "Company beats earnings expectations"
  = ("Positive", "😊", 0.6).
Proof. reflexivity. Qed.

(** A whole page: seven headlines arrive, five are shown. *)
Example seven_headlines_page :
  sentiments (app (fixed_provider reliance scenario_history seven_headlines)
                  sample_engine "reliance.ns")
  = [("Positive", "😊", 0.6); ("Negative", "😟", -0.5); ("Neutral", "😐", 0);
     ("Positive", "😊", 0.05); ("Negative", "😟", -0.05)].
Proof. vm_compute. reflexivity. Qed.

(** An item without a publisher stops the loop before its headline is
    scored; the [try] shows the exception. *)
Example missing_publisher_page :
  let item := <["title" := PyStr "Board meets on Tuesday"]> (∅ : dict) in
  let out := app (fixed_provider reliance scenario_history [item])
                 sample_engine "reliance.ns" in
  sentiments out = [] ∧
  banners out = [st_error_occurred (KeyError "publisher");
                 st_warning "This could be due to an invalid ticker or a network issue. Please try again."].
Proof. cbv zeta. split; vm_compute; reflexivity. Qed.

(** A fetch that fails: the [try] shows the exception and nothing else of
    the body. *)
Example failed_fetch_page :
  let provider := λ _ : string,
    {| Ticker_info := raise (ProviderError "no connection");
       Ticker_history := λ _, mret [];
       Ticker_news := mret [] |} in
  app provider sample_engine "reliance.ns"
  = [st_title "🇮🇳 Personal Stock Analyzer";
     st_caption "A personalized tool to analyze price drops and market sentiment.";
     st_error_occurred (ProviderError "no connection");
     st_warning "This could be due to an invalid ticker or a network issue. Please try again.";
     st_divider;
     st_caption "Disclaimer: This is an informational tool, not financial advice. Always do your own research (DYOR)."].
Proof. reflexivity. Qed.

(** A blank input: the body of the script is skipped. *)
Example blank_input_page :
  app (fixed_provider reliance scenario_history seven_headlines) sample_engine ""
  = [st_title "🇮🇳 Personal Stock Analyzer";
     st_caption "A personalized tool to analyze price drops and market sentiment.";
     st_divider;
     st_caption "Disclaimer: This is an informational tool, not financial advice. Always do your own research (DYOR)."].
Proof. reflexivity. Qed.

(** * Further properties of the script *)

(** ** Signs and bounds of the percentages *)

Lemma percent_split (a b : Q) : ¬ b == 0 → (a - b) / b * 100 == a / b * 100 - 100.
Proof. intros Hb. field. exact Hb. Qed.

Lemma ratio_nonneg (a b : Q) : 0 < b → (0 <= a / b * 100 ↔ 0 <= a).
Proof.
  intros Hb. split.
  - intros H.
    assert (Ha : a == (a / b * 100) * (b / 100))
      by (field; intros Hz; rewrite Hz in Hb; discriminate).
    rewrite Ha. apply Qmult_le_0_compat; [exact H|].
    apply Qle_shift_div_l; [reflexivity|]. rewrite Qmult_0_l.
    apply Qlt_le_weak, Hb.
  - intros Ha. apply Qmult_le_0_compat; [|discriminate].
    apply Qle_shift_div_l; [exact Hb|]. rewrite Qmult_0_l. exact Ha.
Qed.

Lemma percent_sign (a b : Q) :
  0 < b →
  (0 <= (a - b) / b * 100 ↔ b <= a) ∧
  ((a - b) / b * 100 <= 0 ↔ a <= b) ∧
  ((a - b) / b * 100 == 0 ↔ a == b).
Proof.
  intros Hb.
  assert (Hup : 0 <= (a - b) / b * 100 ↔ b <= a).
  { rewrite (ratio_nonneg (a - b) b Hb). split; intros H; lra. }
  assert (Hdown : (a - b) / b * 100 <= 0 ↔ a <= b).
  { split; [|apply percent_nonpos, Hb].
    intros H. destruct (Qlt_le_dec b a) as [Hlt|Hle]; [|exact Hle].
    assert (Hpos : 0 <= (a - b) / b * 100) by (apply Hup; lra).
    assert (Hz : (a - b) / b * 100 == 0) by (apply Qle_antisym; assumption).
    assert (Ha : a - b == ((a - b) / b * 100) * (b / 100))
      by (field; intros Hz'; rewrite Hz' in Hb; discriminate).
    rewrite Hz, Qmult_0_l in Ha. lra. }
  split; [exact Hup|]. split; [exact Hdown|]. split.
  - intros Hz. apply Qle_antisym; [apply Hdown | apply Hup]; rewrite Hz; apply Qle_refl.
  - intros Heq. apply Qle_antisym.
    + apply Hdown. rewrite Heq. apply Qle_refl.
    + apply Hup. rewrite Heq. apply Qle_refl.
Qed.

(** On a non-empty history with positive highs the period high is a positive
    finite number. *)
Lemma positive_period_high (hist : DataFrame) :
  hist ≠ [] → positive_highs hist →
  ∃ h : Q, Series_max (column High hist) = Fin h ∧ 0 < h.
Proof.
  intros Hne Hpos. destruct hist as [|b0 hist']; [contradiction|].
  assert (Hb0 : High b0 ∈ column High (b0 :: hist')) by left.
  assert (Hn0 : Num.is_nan (High b0) = false).
  { apply Forall_cons in Hpos as [(q & -> & _) _]. reflexivity. }
  destruct (Series_max_attained _ _ Hb0 Hn0) as [Hin _].
  apply list_elem_of_fmap in Hin as (b & Hhigh & Hb).
  apply (proj1 (Forall_forall _ _) Hpos) in Hb as (h & Hh & Hlt).
  exists h. split; [rewrite Hhigh; exact Hh | exact Hlt].
Qed.

(** X2: With a positive previous close the sign of the percent change is the
    sign of the move: it is at least 0 exactly when the price is at least
    the previous close, at most 0 exactly when it is at most the previous
    close, and 0 exactly when the two are equal. *)
Theorem percent_change_sign (info : dict) (hist : DataFrame) (cp pc : Q) :
  current_price_of info = PyNum (Fin cp) →
  previous_close_of info = PyNum (Fin pc) →
  0 < pc →
  ∃ m p, price_metrics info hist = mret m ∧
         percent_change m = Fin p ∧
         (0 <= p ↔ pc <= cp) ∧ (p <= 0 ↔ cp <= pc) ∧ (p == 0 ↔ cp == pc).
Proof.
  intros Hcp Hpc Hpos.
  assert (Hnz : ¬ pc == 0) by (intros Hz; rewrite Hz in Hpos; discriminate).
  eexists _, _. split; [apply (price_metrics_numeric _ _ _ _ Hcp Hpc)|].
  cbn [percent_change].
  rewrite (is_zero_Fin_false _ Hnz), (percent_of_Fin _ _ Hnz).
  split; [reflexivity|]. apply percent_sign, Hpos.
Qed.

Lemma percent_change_sign_witness :
  current_price_of reliance = PyNum (Fin 2500) ∧
  previous_close_of reliance = PyNum (Fin 2400) ∧
  0 < 2400 ∧
  ∃ m p, price_metrics reliance scenario_history = mret m ∧
         percent_change m = Fin p ∧
         (0 <= p ↔ 2400 <= 2500) ∧ (p <= 0 ↔ 2500 <= 2400) ∧
         (p == 0 ↔ 2500 == 2400).
Proof.
  split; [reflexivity|]. split; [reflexivity|]. split; [reflexivity|].
  exact (percent_change_sign reliance scenario_history 2500 2400
           eq_refl eq_refl eq_refl).
Defined.

(** X3: On a non-empty history with positive highs, a price that is not
    negative has a drawdown of at least -100; the drawdown is at most 0
    exactly when the price is at most the period high, and 0 exactly when
    the price is the period high. *)
Theorem drawdown_bounds (info : dict) (hist : DataFrame) (cp : Q) (pc : num) :
  hist ≠ [] →
  positive_highs hist →
  current_price_of info = PyNum (Fin cp) →
  previous_close_of info = PyNum pc →
  0 <= cp →
  ∃ m h, price_metrics info hist = mret m ∧
         high_60d m = Fin h ∧ 0 < h ∧
         Num.leb (Fin (-100)) (drop_from_high m) = true ∧
         (Num.leb (drop_from_high m) (Fin 0) = true ↔ cp <= h) ∧
         (drop_from_high m ≃ Fin 0 ↔ cp == h).
Proof.
  intros Hne Hpos Hcp Hpc Hcp0.
  destruct (positive_period_high hist Hne Hpos) as (h & Hh & Hlt).
  assert (Hnz : ¬ h == 0) by (intros Hz; rewrite Hz in Hlt; discriminate).
  eexists _, h. split; [apply (price_metrics_numeric _ _ _ _ Hcp Hpc)|].
  cbn [high_60d drop_from_high]. rewrite Hh, (percent_of_Fin _ _ Hnz).
  split; [reflexivity|]. split; [exact Hlt|].
  destruct (percent_sign cp h Hlt) as (_ & Hdown & Hzero).
  pose proof (percent_split cp h Hnz) as Hsplit.
  pose proof (proj2 (ratio_nonneg cp h Hlt) Hcp0) as Hratio.
  cbn [Num.leb Num.same]. rewrite !Qle_bool_iff.
  split; [rewrite Hsplit; lra|]. split; [exact Hdown | exact Hzero].
Qed.

Lemma drawdown_bounds_witness :
  scenario_history ≠ [] ∧
  positive_highs scenario_history ∧
  0 <= 2500 ∧
  ∃ m h, price_metrics reliance scenario_history = mret m ∧
         high_60d m = Fin h ∧ 0 < h ∧
         Num.leb (Fin (-100)) (drop_from_high m) = true ∧
         (Num.leb (drop_from_high m) (Fin 0) = true ↔ 2500 <= h) ∧
         (drop_from_high m ≃ Fin 0 ↔ 2500 == h).
Proof.
  assert (Hne : scenario_history ≠ []) by discriminate.
  assert (Hpos : positive_highs scenario_history).
  { repeat constructor; eexists; split; reflexivity. }
  assert (Hcp0 : 0 <= 2500) by discriminate.
  split; [exact Hne|]. split; [exact Hpos|]. split; [exact Hcp0|].
  exact (drawdown_bounds reliance scenario_history 2500 (Fin 2400)
           Hne Hpos eq_refl eq_refl Hcp0).
Defined.

(** ** The period high as a function of the window *)

Lemma same_sym (x y : num) : x ≃ y → y ≃ x.
Proof. destruct x, y; simpl; auto. apply Qeq_sym. Qed.

Lemma leb_antisym (x y : num) :
  Num.leb x y = true → Num.leb y x = true → x ≃ y.
Proof.
  destruct x, y; simpl; try discriminate; auto.
  rewrite !Qle_bool_iff. apply Qle_antisym.
Qed.

Lemma Qsign_same (a b : Q) : a == b → Num.Qsign a = Num.Qsign b.
Proof. intros H. unfold Num.Qsign. rewrite H. reflexivity. Qed.

Lemma sub_same (x x' y y' : num) :
  x ≃ x' → y ≃ y' → Num.sub x y ≃ Num.sub x' y'.
Proof.
  destruct x, x', y, y'; simpl; try contradiction; auto.
  intros H H'. rewrite H, H'. reflexivity.
Qed.

Lemma mul_same (x x' y y' : num) :
  x ≃ x' → y ≃ y' → Num.mul x y ≃ Num.mul x' y'.
Proof.
  destruct x, x', y, y'; simpl; try contradiction; auto;
    try (intros H H'; rewrite H, H'; reflexivity);
    intros H H';
    first [ rewrite (Qsign_same _ _ H) | rewrite (Qsign_same _ _ H') ];
    apply same_refl.
Qed.

Lemma div_same (x x' y y' : num) :
  x ≃ x' → y ≃ y' → Num.div x y ≃ Num.div x' y'.
Proof.
  destruct x, x', y, y'; simpl; try contradiction; auto;
    try (intros _ _; reflexivity).
  - intros H H'. rewrite (Qsign_same _ _ H).
    assert (Hz : Qeq_bool q1 0 = Qeq_bool q2 0) by (rewrite H'; reflexivity).
    rewrite Hz. destruct (Qeq_bool q2 0) eqn:E; [apply same_refl|].
    simpl. rewrite H, H'. reflexivity.
  - intros _ H'.
    assert (Hz : Qeq_bool q 0 = Qeq_bool q0 0) by (rewrite H'; reflexivity).
    rewrite Hz, (Qsign_same _ _ H'). apply same_refl.
  - intros _ H'.
    assert (Hz : Qeq_bool q 0 = Qeq_bool q0 0) by (rewrite H'; reflexivity).
    rewrite Hz, (Qsign_same _ _ H'). apply same_refl.
Qed.

(** A column without a value has the maximum NaN. *)
Lemma Series_max_all_nan (s : list num) :
  (∀ x, x ∈ s → Num.is_nan x = true) → Series_max s = NaN.
Proof.
  intros Hall. unfold Series_max.
  destruct (List.filter (λ x, negb (Num.is_nan x)) s) as [|a xs] eqn:E;
    [reflexivity|].
  assert (Ha : In a (List.filter (λ x, negb (Num.is_nan x)) s))
    by (rewrite E; left; reflexivity).
  apply filter_In in Ha as [Hin Hn]. apply list_elem_of_In, Hall in Hin.
  rewrite Hin in Hn. discriminate.
Qed.

(** The maximum depends on the values of the column only, not on their order
    or their number of occurrences. *)
Lemma Series_max_same_values (s s' : list num) :
  (∀ x, x ∈ s ↔ x ∈ s') → Series_max s ≃ Series_max s'.
Proof.
  intros Hsame.
  destruct (List.existsb (λ x, negb (Num.is_nan x)) s) eqn:E.
  - apply existsb_exists in E as (x & Hin & Hn).
    apply list_elem_of_In in Hin. apply negb_true_iff in Hn.
    assert (Hin' : x ∈ s') by (apply Hsame, Hin).
    destruct (Series_max_attained s x Hin Hn) as [Hm Hmn].
    destruct (Series_max_attained s' x Hin' Hn) as [Hm' Hmn'].
    apply leb_antisym.
    + apply Series_max_upper; [apply Hsame, Hm | exact Hmn].
    + apply Series_max_upper; [apply Hsame, Hm' | exact Hmn'].
  - assert (Hall : ∀ x, x ∈ s → Num.is_nan x = true).
    { intros x Hin. destruct (Num.is_nan x) eqn:Hn; [reflexivity|].
      assert (Hex : List.existsb (λ x, negb (Num.is_nan x)) s = true).
      { apply existsb_exists. exists x. split; [apply list_elem_of_In, Hin|].
        rewrite Hn. reflexivity. }
      congruence. }
    rewrite (Series_max_all_nan s Hall), (Series_max_all_nan s'); [exact I|].
    intros x Hin. apply Hall, Hsame, Hin.
Qed.

(** X4: The order of the bars does not matter: two histories with the same bars
    in any order give the same period high and the same drawdown. *)
Theorem period_high_order_free (info : dict) (hist hist' : DataFrame) (cp pc : num) :
  hist ≡ₚ hist' →
  current_price_of info = PyNum cp →
  previous_close_of info = PyNum pc →
  ∃ m m', price_metrics info hist = mret m ∧
          price_metrics info hist' = mret m' ∧
          high_60d m ≃ high_60d m' ∧
          drop_from_high m ≃ drop_from_high m'.
Proof.
  intros Hperm Hcp Hpc.
  eexists _, _. split; [apply (price_metrics_numeric _ _ _ _ Hcp Hpc)|].
  split; [apply (price_metrics_numeric _ _ _ _ Hcp Hpc)|].
  cbn [high_60d drop_from_high].
  assert (Hhigh : Series_max (column High hist) ≃ Series_max (column High hist')).
  { apply Series_max_same_values. intros x. unfold column.
    rewrite !list_elem_of_fmap. split; intros (b & -> & Hb); exists b;
      (split; [reflexivity|]); [rewrite <- Hperm | rewrite Hperm]; exact Hb. }
  split; [exact Hhigh|].
  apply mul_same; [|apply same_refl].
  apply div_same; [|exact Hhigh].
  apply sub_same; [apply same_refl | exact Hhigh].
Qed.

Lemma period_high_order_free_witness :
  scenario_history ≡ₚ reverse scenario_history ∧
  ∃ m m', price_metrics reliance scenario_history = mret m ∧
          price_metrics reliance (reverse scenario_history) = mret m' ∧
          high_60d m ≃ high_60d m' ∧
          drop_from_high m ≃ drop_from_high m'.
Proof.
  assert (Hperm : scenario_history ≡ₚ reverse scenario_history)
    by (symmetry; apply reverse_Permutation).
  split; [exact Hperm|].
  exact (period_high_order_free reliance scenario_history
           (reverse scenario_history) (Fin 2500) (Fin 2400)
           Hperm eq_refl eq_refl).
Defined.

(** X5: The high over the whole history is at least the high over any part of it
    that has a high, such as its last sixty bars. *)
Theorem period_high_covers_window (info : dict) (hist window : DataFrame)
    (b : Bar) (cp pc : num) :
  window ⊆ hist →
  b ∈ window →
  Num.is_nan (High b) = false →
  current_price_of info = PyNum cp →
  previous_close_of info = PyNum pc →
  ∃ m m', price_metrics info window = mret m ∧
          price_metrics info hist = mret m' ∧
          Num.leb (high_60d m) (high_60d m') = true.
Proof.
  intros Hsub Hb Hn Hcp Hpc.
  eexists _, _. split; [apply (price_metrics_numeric _ _ _ _ Hcp Hpc)|].
  split; [apply (price_metrics_numeric _ _ _ _ Hcp Hpc)|].
  cbn [high_60d].
  assert (Hin : High b ∈ column High window)
    by (apply list_elem_of_fmap; exists b; split; [reflexivity | exact Hb]).
  destruct (Series_max_attained _ _ Hin Hn) as [Hm Hmn].
  apply Series_max_upper; [|exact Hmn].
  apply list_elem_of_fmap in Hm as (b' & -> & Hb').
  apply list_elem_of_fmap. exists b'. split; [reflexivity | apply Hsub, Hb'].
Qed.

Lemma period_high_covers_window_witness :
  drop 1 scenario_history ⊆ scenario_history ∧
  bar_of_high 2550 ∈ drop 1 scenario_history ∧
  Num.is_nan (High (bar_of_high 2550)) = false ∧
  ∃ m m', price_metrics reliance (drop 1 scenario_history) = mret m ∧
          price_metrics reliance scenario_history = mret m' ∧
          Num.leb (high_60d m) (high_60d m') = true.
Proof.
  assert (Hsub : drop 1 scenario_history ⊆ scenario_history)
    by (intros x Hx; right; exact Hx).
  assert (Hb : bar_of_high 2550 ∈ drop 1 scenario_history) by left.
  split; [exact Hsub|]. split; [exact Hb|]. split; [reflexivity|].
  exact (period_high_covers_window reliance scenario_history
           (drop 1 scenario_history) (bar_of_high 2550) (Fin 2500) (Fin 2400)
           Hsub Hb eq_refl eq_refl eq_refl).
Defined.

(** ** How the script's steps compose *)

Lemma bind_out {A B} (m : ui A) (k : A → ui B) :
  (m ≫= k).1 = m.1 ++ match m.2 with inr a => (k a).1 | inl _ => [] end.
Proof.
  destruct m as [out [e|a]]; simpl; [rewrite app_nil_r; reflexivity|].
  destruct (k a); reflexivity.
Qed.

Lemma bind_result {A B} (m : ui A) (k : A → ui B) :
  (m ≫= k).2 = match m.2 with inr a => (k a).2 | inl e => inl e end.
Proof.
  destruct m as [out [e|a]]; simpl; [reflexivity|].
  destruct (k a); reflexivity.
Qed.

Lemma banners_app (out out' : list widget) :
  banners (out ++ out') = banners out ++ banners out'.
Proof. unfold banners. apply List.filter_app. Qed.

Section Runs.

Context (yf_Ticker : string → Ticker) (polarity_compound : string → Q).

Lemma page_fetch_failed (ticker : string) (e : exn) :
  get_stock_data yf_Ticker ticker = raise e →
  page yf_Ticker polarity_compound ticker = ([], raise e).
Proof. intros Hget. unfold page. rewrite Hget. reflexivity. Qed.

Lemma page_metrics_failed (ticker : string) info hist news (e : exn) :
  get_stock_data yf_Ticker ticker = mret (info, hist, news) →
  ¬ invalid_record info →
  price_metrics info hist = raise e →
  page yf_Ticker polarity_compound ticker =
    ([st_header (get info "longName" (PyStr "N/A"))
                (get info "symbol" (PyStr "N/A"))], raise e).
Proof.
  intros Hget Hval Hm. rewrite invalid_record_test in Hval.
  apply not_true_is_false in Hval.
  unfold page. rewrite Hget, lift_ret_then, Hval, emit_then, Hm. reflexivity.
Qed.

Lemma page_cap_failed (ticker : string) info hist news m :
  get_stock_data yf_Ticker ticker = mret (info, hist, news) →
  ¬ invalid_record info →
  price_metrics info hist = mret m →
  (∀ cap, get info "marketCap" (PyNum 0) ≠ PyNum cap) →
  page yf_Ticker polarity_compound ticker =
    ([st_header (get info "longName" (PyStr "N/A"))
                (get info "symbol" (PyStr "N/A"));
      st_metric "Current Price" (current_price m)
        [price_change m; percent_change m];
      st_metric "60-Day High" (high_60d m) [drop_from_high m]],
     raise TypeError).
Proof.
  intros Hget Hval Hm Hcap. rewrite invalid_record_test in Hval.
  apply not_true_is_false in Hval.
  unfold page. rewrite Hget, lift_ret_then, Hval, emit_then, Hm, lift_ret_then.
  rewrite !emit_then.
  destruct (get info "marketCap" (PyNum 0)) as [|cap|txt];
    [reflexivity | exfalso; apply (Hcap cap); reflexivity | reflexivity].
Qed.

(** A record that passes the three checks: everything up to the news, the
    news section, and, when that completes, the links. *)
Lemma page_valid_run (ticker : string) info hist news m (cap : num) :
  get_stock_data yf_Ticker ticker = mret (info, hist, news) →
  ¬ invalid_record info →
  price_metrics info hist = mret m →
  get info "marketCap" (PyNum 0) = PyNum cap →
  page yf_Ticker polarity_compound ticker =
    ([st_header (get info "longName" (PyStr "N/A"))
                (get info "symbol" (PyStr "N/A"));
      st_metric "Current Price" (current_price m)
        [price_change m; percent_change m];
      st_metric "60-Day High" (high_60d m) [drop_from_high m];
      st_metric "Market Cap" (Num.div cap 1e7) [];
      st_divider;
      st_subheader "🏢 Core Competence";
      st_info (get info "longBusinessSummary"
                 (PyStr "No business summary available."))]
     ++ (news_section polarity_compound news).1
     ++ match (news_section polarity_compound news).2 with
        | inr _ =>
            [st_divider;
             st_subheader "💼 Top Investor Activity (Bulk & Block Deals)";
             st_info (PyStr
               "Please check the official NSE website for the most accurate data.");
             st_markdown_deals (before_dot ticker)]
        | inl _ => []
        end,
     match (news_section polarity_compound news).2 with
     | inr _ => mret tt
     | inl e => raise e
     end).
Proof.
  intros Hget Hval Hm Hcap. rewrite invalid_record_test in Hval.
  apply not_true_is_false in Hval.
  unfold page. rewrite Hget, lift_ret_then, Hval, emit_then, Hm, lift_ret_then.
  rewrite !emit_then, Hcap.
  assert (Hdiv : py_truediv cap 1e7 = mret (Num.div cap 1e7))
    by (unfold py_truediv; destruct cap; reflexivity).
  rewrite Hdiv, lift_ret_then, !emit_then.
  destruct (news_section polarity_compound news) as [out [e|[]]];
    cbn; rewrite ?app_nil_r; reflexivity.
Qed.

End Runs.

(** Without two numeric prices the metrics raise [TypeError]. *)
Lemma price_metrics_not_numeric (info : dict) (hist : DataFrame) :
  (¬ ∃ cp pc, current_price_of info = PyNum cp ∧
              previous_close_of info = PyNum pc) →
  price_metrics info hist = raise TypeError.
Proof.
  intros Hnot. unfold price_metrics.
  destruct (current_price_of info) as [|cp|]; try reflexivity.
  destruct (previous_close_of info) as [|pc|]; try reflexivity.
  exfalso. apply Hnot. eauto.
Qed.

(** ** Runs that stop early *)

(** X6: A failed fetch: whichever of the three accesses fails first, in the
    order info, history, news, the page shows that exception with the
    warning and nothing of the record, also when the record itself had been
    fetched. *)
Theorem failed_fetch_shows_only_the_error
    (yf_Ticker : string → Ticker) (engine : string → Q)
    (text_input : string) (e : exn) :
  upper text_input ≠ "" →
  let stock := yf_Ticker (upper text_input) in
  (Ticker_info stock = raise e ∨
   (∃ info, Ticker_info stock = mret info ∧
            Ticker_history stock "3mo" = raise e) ∨
   (∃ info hist, Ticker_info stock = mret info ∧
                 Ticker_history stock "3mo" = mret hist ∧
                 Ticker_news stock = raise e)) →
  app yf_Ticker engine text_input =
    [st_title "🇮🇳 Personal Stock Analyzer";
     st_caption "A personalized tool to analyze price drops and market sentiment.";
     st_error_occurred e;
     st_warning "This could be due to an invalid ticker or a network issue. Please try again.";
     st_divider;
     st_caption "Disclaimer: This is an informational tool, not financial advice. Always do your own research (DYOR)."].
Proof.
  intros Hne stock Hfail.
  assert (Hget : get_stock_data yf_Ticker (upper text_input) = raise e).
  { unfold get_stock_data. fold stock.
    destruct Hfail as [Hi | [(info & Hi & Hh) | (info & hist & Hi & Hh & Hn)]].
    - rewrite Hi. reflexivity.
    - rewrite Hi. cbn. rewrite Hh. reflexivity.
    - rewrite Hi. cbn. rewrite Hh. cbn. rewrite Hn. reflexivity. }
  rewrite (app_of_page _ _ _ Hne), (page_fetch_failed _ _ _ _ Hget).
  reflexivity.
Qed.

Lemma failed_fetch_shows_only_the_error_witness :
  let provider := λ _ : string,
    {| Ticker_info := mret reliance;
       Ticker_history := λ _, mret scenario_history;
       Ticker_news := raise (ProviderError "no connection") |} in
  upper "reliance.ns" ≠ "" ∧
  app provider sample_engine "reliance.ns" =
    [st_title "🇮🇳 Personal Stock Analyzer";
     st_caption "A personalized tool to analyze price drops and market sentiment.";
     st_error_occurred (ProviderError "no connection");
     st_warning "This could be due to an invalid ticker or a network issue. Please try again.";
     st_divider;
     st_caption "Disclaimer: This is an informational tool, not financial advice. Always do your own research (DYOR)."].
Proof.
  intros provider.
  assert (Hne : upper "reliance.ns" ≠ "") by (vm_compute; discriminate).
  split; [exact Hne|].
  apply (failed_fetch_shows_only_the_error provider sample_engine
           "reliance.ns" (ProviderError "no connection") Hne).
  right; right. exists reliance, scenario_history.
  split; [reflexivity|]. split; reflexivity.
Defined.

(** X7: A record with a display name whose current price or previous close is
    not a number: the header is shown, then the [TypeError] with the
    warning; no metric is shown, and neither are the summary, the news or
    the links. *)
Theorem non_numeric_price_page
    (yf_Ticker : string → Ticker) (engine : string → Q)
    (text_input : string) info hist news :
  upper text_input ≠ "" →
  get_stock_data yf_Ticker (upper text_input) = mret (info, hist, news) →
  ¬ invalid_record info →
  (¬ ∃ cp pc, current_price_of info = PyNum cp ∧
              previous_close_of info = PyNum pc) →
  app yf_Ticker engine text_input =
    [st_title "🇮🇳 Personal Stock Analyzer";
     st_caption "A personalized tool to analyze price drops and market sentiment.";
     st_header (get info "longName" (PyStr "N/A"))
               (get info "symbol" (PyStr "N/A"));
     st_error_occurred TypeError;
     st_warning "This could be due to an invalid ticker or a network issue. Please try again.";
     st_divider;
     st_caption "Disclaimer: This is an informational tool, not financial advice. Always do your own research (DYOR)."].
Proof.
  intros Hne Hget Hval Hnum.
  apply (price_metrics_not_numeric info hist) in Hnum.
  rewrite (app_of_page _ _ _ Hne).
  rewrite (page_metrics_failed _ _ _ _ _ _ _ Hget Hval Hnum). reflexivity.
Qed.

Lemma non_numeric_price_page_witness :
  let provider := fixed_provider reliance_unpriced scenario_history seven_headlines in
  upper "reliance.ns" ≠ "" ∧
  ¬ invalid_record reliance_unpriced ∧
  (¬ ∃ cp pc, current_price_of reliance_unpriced = PyNum cp ∧
              previous_close_of reliance_unpriced = PyNum pc) ∧
  app provider sample_engine "reliance.ns" =
    [st_title "🇮🇳 Personal Stock Analyzer";
     st_caption "A personalized tool to analyze price drops and market sentiment.";
     st_header (get reliance_unpriced "longName" (PyStr "N/A"))
               (get reliance_unpriced "symbol" (PyStr "N/A"));
     st_error_occurred TypeError;
     st_warning "This could be due to an invalid ticker or a network issue. Please try again.";
     st_divider;
     st_caption "Disclaimer: This is an informational tool, not financial advice. Always do your own research (DYOR)."].
Proof.
  intros provider.
  assert (Hne : upper "reliance.ns" ≠ "") by (vm_compute; discriminate).
  assert (Hval : ¬ invalid_record reliance_unpriced)
    by (rewrite invalid_record_test; vm_compute; discriminate).
  assert (Hnum : ¬ ∃ cp pc, current_price_of reliance_unpriced = PyNum cp ∧
                            previous_close_of reliance_unpriced = PyNum pc)
    by (intros (cp & pc & Hcp & _); vm_compute in Hcp; discriminate).
  split; [exact Hne|]. split; [exact Hval|]. split; [exact Hnum|].
  exact (non_numeric_price_page provider sample_engine "reliance.ns"
           reliance_unpriced scenario_history seven_headlines
           Hne eq_refl Hval Hnum).
Defined.

(** X8: A record with numeric prices whose market capitalisation is not a
    number: the header and the two price metrics are shown, then the
    [TypeError] with the warning; the market cap, the summary, the news and
    the links are not. *)
Theorem non_numeric_market_cap_page
    (yf_Ticker : string → Ticker) (engine : string → Q)
    (text_input : string) info hist news (cp pc : num) :
  upper text_input ≠ "" →
  get_stock_data yf_Ticker (upper text_input) = mret (info, hist, news) →
  ¬ invalid_record info →
  current_price_of info = PyNum cp →
  previous_close_of info = PyNum pc →
  (∀ cap, get info "marketCap" (PyNum 0) ≠ PyNum cap) →
  ∃ m, price_metrics info hist = mret m ∧
    app yf_Ticker engine text_input =
      [st_title "🇮🇳 Personal Stock Analyzer";
       st_caption "A personalized tool to analyze price drops and market sentiment.";
       st_header (get info "longName" (PyStr "N/A"))
                 (get info "symbol" (PyStr "N/A"));
       st_metric "Current Price" (current_price m)
         [price_change m; percent_change m];
       st_metric "60-Day High" (high_60d m) [drop_from_high m];
       st_error_occurred TypeError;
       st_warning "This could be due to an invalid ticker or a network issue. Please try again.";
       st_divider;
       st_caption "Disclaimer: This is an informational tool, not financial advice. Always do your own research (DYOR)."].
Proof.
  intros Hne Hget Hval Hcp Hpc Hcap.
  pose proof (price_metrics_numeric info hist cp pc Hcp Hpc) as Hm.
  eexists. split; [exact Hm|].
  rewrite (app_of_page _ _ _ Hne).
  rewrite (page_cap_failed _ _ _ _ _ _ _ Hget Hval Hm Hcap). reflexivity.
Qed.

Lemma non_numeric_market_cap_page_witness :
  let provider := fixed_provider reliance_uncapitalised scenario_history seven_headlines in
  upper "reliance.ns" ≠ "" ∧
  ¬ invalid_record reliance_uncapitalised ∧
  (∀ cap, get reliance_uncapitalised "marketCap" (PyNum 0) ≠ PyNum cap) ∧
  ∃ m, price_metrics reliance_uncapitalised scenario_history = mret m ∧
    app provider sample_engine "reliance.ns" =
      [st_title "🇮🇳 Personal Stock Analyzer";
       st_caption "A personalized tool to analyze price drops and market sentiment.";
       st_header (get reliance_uncapitalised "longName" (PyStr "N/A"))
                 (get reliance_uncapitalised "symbol" (PyStr "N/A"));
       st_metric "Current Price" (current_price m)
         [price_change m; percent_change m];
       st_metric "60-Day High" (high_60d m) [drop_from_high m];
       st_error_occurred TypeError;
       st_warning "This could be due to an invalid ticker or a network issue. Please try again.";
       st_divider;
       st_caption "Disclaimer: This is an informational tool, not financial advice. Always do your own research (DYOR)."].
Proof.
  intros provider.
  assert (Hne : upper "reliance.ns" ≠ "") by (vm_compute; discriminate).
  assert (Hval : ¬ invalid_record reliance_uncapitalised)
    by (rewrite invalid_record_test; vm_compute; discriminate).
  assert (Hcap : ∀ cap, get reliance_uncapitalised "marketCap" (PyNum 0) ≠ PyNum cap)
    by (intros cap H; vm_compute in H; discriminate).
  split; [exact Hne|]. split; [exact Hval|]. split; [exact Hcap|].
  exact (non_numeric_market_cap_page provider sample_engine "reliance.ns"
           reliance_uncapitalised scenario_history seven_headlines
           (Fin 2500) (Fin 2400) Hne eq_refl Hval eq_refl eq_refl Hcap).
Defined.

(** X9: The market capitalisation is shown in crores: a record that passes the
    checks shows its market cap divided by ten million, and 0 when it has
    none; the division cannot fail, and the metric is on the page whatever
    the news section does afterwards. *)
Theorem market_cap_in_crores
    (yf_Ticker : string → Ticker) (engine : string → Q)
    (text_input : string) info hist news (cp pc : num) (cap : Q) :
  upper text_input ≠ "" →
  get_stock_data yf_Ticker (upper text_input) = mret (info, hist, news) →
  ¬ invalid_record info →
  current_price_of info = PyNum cp →
  previous_close_of info = PyNum pc →
  (info !! "marketCap" = Some (PyNum (Fin cap)) ∨
   info !! "marketCap" = None ∧ cap == 0) →
  ∃ shown : Q,
    metric_of "Market Cap" (app yf_Ticker engine text_input)
    = Some (Fin shown, []) ∧
    shown == cap / 10000000.
Proof.
  intros Hne Hget Hval Hcp Hpc Hcap.
  pose proof (price_metrics_numeric info hist cp pc Hcp Hpc) as Hm.
  assert (Hshown : ∃ c : Q, get info "marketCap" (PyNum 0) = PyNum (Fin c) ∧ c == cap).
  { unfold get. destruct Hcap as [-> | [-> Hz]].
    - exists cap. split; reflexivity.
    - exists 0. split; [reflexivity | symmetry; exact Hz]. }
  destruct Hshown as (c & Hc & Heq).
  rewrite (app_of_page _ _ _ Hne).
  rewrite (page_valid_run _ _ _ _ _ _ _ _ Hget Hval Hm Hc).
  exists (c / 1e7). split.
  - destruct (news_section engine news) as [out [e|[]]]; reflexivity.
  - rewrite Heq. reflexivity.
Qed.

Lemma market_cap_in_crores_witness :
  let provider := fixed_provider reliance_capitalised scenario_history seven_headlines in
  upper "reliance.ns" ≠ "" ∧
  ¬ invalid_record reliance_capitalised ∧
  reliance_capitalised !! "marketCap" = Some (PyNum (Fin 170000000000000)) ∧
  ∃ shown : Q,
    metric_of "Market Cap" (app provider sample_engine "reliance.ns")
    = Some (Fin shown, []) ∧
    shown == 170000000000000 / 10000000.
Proof.
  intros provider.
  assert (Hne : upper "reliance.ns" ≠ "") by (vm_compute; discriminate).
  assert (Hval : ¬ invalid_record reliance_capitalised)
    by (rewrite invalid_record_test; vm_compute; discriminate).
  split; [exact Hne|]. split; [exact Hval|]. split; [reflexivity|].
  exact (market_cap_in_crores provider sample_engine "reliance.ns"
           reliance_capitalised scenario_history seven_headlines
           (Fin 2500) (Fin 2400) 170000000000000
           Hne eq_refl Hval eq_refl eq_refl (or_introl eq_refl)).
Defined.

(** ** The news loop on arbitrary items *)

Section Loop.

Context (engine : string → Q).

Lemma sentiments_item_widgets (item : dict) :
  sentiments (item_widgets engine item) = [get_sentiment engine (title_of item)].
Proof.
  unfold item_widgets. destruct (get_sentiment engine (title_of item)) as [[l e] s].
  reflexivity.
Qed.

Lemma banners_item_widgets (item : dict) : banners (item_widgets engine item) = [].
Proof.
  unfold item_widgets. destruct (get_sentiment engine (title_of item)) as [[l e] s].
  reflexivity.
Qed.

Lemma sentiments_concat_items (items : list dict) :
  sentiments (concat (map (item_widgets engine) items))
  = map (λ item, get_sentiment engine (title_of item)) items.
Proof.
  induction items as [|item items IH]; [reflexivity|].
  cbn [map concat]. rewrite sentiments_app, sentiments_item_widgets, IH. reflexivity.
Qed.

Lemma banners_concat_items (items : list dict) :
  banners (concat (map (item_widgets engine) items)) = [].
Proof.
  induction items as [|item items IH]; [reflexivity|].
  cbn [map concat]. rewrite banners_app, banners_item_widgets, IH. reflexivity.
Qed.

(** What the loop body does with one item: its three widgets, or nothing and
    the exception of the first thing it lacks. *)
Lemma news_item_outcome (item : dict) :
  (well_formed_item item ∧
   news_item engine item = (item_widgets engine item, mret tt)) ∨
  (¬ well_formed_item item ∧
   news_item engine item =
     ([], raise match item !! "title", item !! "publisher" with
                | None, _ => KeyError "title"
                | Some _, None => KeyError "publisher"
                | Some _, Some _ => TypeError
                end)).
Proof.
  unfold news_item, subscript, item_widgets, title_of, get, well_formed_item.
  destruct (item !! "title") as [t|] eqn:Ht.
  - destruct (item !! "publisher") as [p|] eqn:Hp.
    + destruct t as [|x|title].
      * right. split; [intros (t' & p' & [=] & _) | reflexivity].
      * right. split; [intros (t' & p' & [=] & _) | reflexivity].
      * left. split; [eauto|]. rewrite !lift_ret_then.
        destruct (get_sentiment engine title) as [[l e] s]. reflexivity.
    + right. split; [intros (t' & p' & _ & [=]) | reflexivity].
  - right. split; [intros (t' & p' & [=] & _) | reflexivity].
Qed.

Lemma for_each_items (items : list dict) :
  Forall well_formed_item items →
  for_each items (news_item engine)
  = (concat (map (item_widgets engine) items), mret tt).
Proof.
  induction 1 as [|item items Hwf _ IH]; [reflexivity|].
  destruct (news_item_outcome item) as [[_ Hrun] | [Hbad _]]; [|contradiction].
  cbn [for_each map concat]. rewrite Hrun. unfold mbind, ui_bind.
  rewrite IH. reflexivity.
Qed.

(** The loop stops at the first item a body run fails on; the widgets of the
    items before it stay. *)
Lemma for_each_stops (pre post : list dict) (item : dict) (e : exn) :
  Forall well_formed_item pre →
  news_item engine item = ([], raise e) →
  for_each (pre ++ item :: post) (news_item engine)
  = (concat (map (item_widgets engine) pre), raise e).
Proof.
  intros Hpre Hitem. induction Hpre as [|x pre Hwf _ IH].
  - rewrite app_nil_l. cbn [for_each map concat]. rewrite Hitem. reflexivity.
  - destruct (news_item_outcome x) as [[_ Hrun] | [Hbad _]]; [|contradiction].
    rewrite <- app_comm_cons. cbn [for_each map concat].
    rewrite Hrun. unfold mbind, ui_bind. rewrite IH. reflexivity.
Qed.

(** Any list splits into its well-formed start and, unless that is all of
    it, the item the loop stops at. *)
Lemma for_each_any (items : list dict) :
  ∃ pre, pre `prefix_of` items ∧
         (for_each items (news_item engine)).1
         = concat (map (item_widgets engine) pre).
Proof.
  induction items as [|item items (pre & Hpre & IH)].
  - exists []. split; reflexivity.
  - destruct (news_item_outcome item) as [[_ Hrun] | [_ Hrun]].
    + exists (item :: pre). split; [apply prefix_cons, Hpre|].
      cbn [for_each]. rewrite bind_out, Hrun. cbn [fst snd map concat].
      rewrite IH. reflexivity.
    + exists []. split; [apply prefix_nil|].
      cbn [for_each]. rewrite bind_out, Hrun. reflexivity.
Qed.

Lemma news_section_any (news : list dict) :
  banners (news_section engine news).1 = [] ∧
  sentiments (news_section engine news).1
    `prefix_of` map (λ item, get_sentiment engine (title_of item)) (take 5 news).
Proof.
  unfold news_section. rewrite emit_then. cbn [fst].
  case_bool_decide as Hnews.
  - subst news. split; [reflexivity | apply prefix_nil].
  - destruct (for_each_any (take 5 news)) as (pre & [rest Hpre] & Hout).
    change (banners (?w :: ?out)) with (banners ([w] ++ out)).
    change (sentiments (?w :: ?out)) with (sentiments ([w] ++ out)).
    rewrite banners_app, sentiments_app, Hout.
    rewrite banners_concat_items, sentiments_concat_items. split; [reflexivity|].
    rewrite Hpre, map_app. cbn [sentiments app]. apply prefix_app_r. reflexivity.
Qed.

End Loop.

(** ** What the news section shows *)

Lemma news_section_well_formed (engine : string → Q) (news : list dict) :
  Forall well_formed_item (take 5 news) →
  news_section engine news =
    (st_subheader "📰 Recent News & Sentiment"
     :: (if bool_decide (news = [])
         then [st_write "No recent news found."]
         else concat (map (item_widgets engine) (take 5 news))),
     mret tt).
Proof.
  intros Hwf. unfold news_section. rewrite emit_then.
  case_bool_decide; [reflexivity|]. rewrite (for_each_items engine _ Hwf).
  reflexivity.
Qed.

Lemma take_past_item (pre post : list dict) (item : dict) :
  (length pre < 5)%nat →
  ∃ post', take 5 (pre ++ item :: post) = pre ++ item :: post'.
Proof.
  intros Hlen. rewrite take_app, (take_ge pre) by lia.
  destruct (5 - length pre)%nat as [|j] eqn:E; [lia|].
  exists (take j post). reflexivity.
Qed.

(** X10: An item among the first five that the loop body cannot process stops
    the loop: the headlines before it have been shown with their sentiments,
    its own and the later ones are not, and the exception is [KeyError] for
    the title when that is missing, else [KeyError] for the publisher when
    that is missing, else [TypeError] for a title that is not text. *)
Theorem news_stops_at_malformed_item
    (engine : string → Q) (pre post : list dict) (item : dict) :
  (length pre < 5)%nat →
  Forall well_formed_item pre →
  ¬ well_formed_item item →
  sentiments (news_section engine (pre ++ item :: post)).1
  = map (λ i, get_sentiment engine (title_of i)) pre ∧
  (news_section engine (pre ++ item :: post)).2
  = raise match item !! "title", item !! "publisher" with
          | None, _ => KeyError "title"
          | Some _, None => KeyError "publisher"
          | Some _, Some _ => TypeError
          end.
Proof.
  intros Hlen Hpre Hbad.
  destruct (news_item_outcome engine item) as [[Hwf _] | [_ Hitem]];
    [contradiction|].
  destruct (take_past_item pre post item Hlen) as (post' & Htake).
  unfold news_section. rewrite emit_then.
  case_bool_decide as Hnil; [destruct pre; discriminate|].
  rewrite Htake, (for_each_stops engine pre post' item _ Hpre Hitem).
  cbn [fst snd sentiments]. rewrite sentiments_concat_items.
  split; reflexivity.
Qed.

Lemma news_stops_at_malformed_item_witness :
  let item := <["title" := PyStr "Board meets on Tuesday"]> (∅ : dict) in
  let pre := take 2 seven_headlines in
  let post := drop 2 seven_headlines in
  (length pre < 5)%nat ∧
  Forall well_formed_item pre ∧
  ¬ well_formed_item item ∧
  sentiments (news_section sample_engine (pre ++ item :: post)).1
  = map (λ i, get_sentiment sample_engine (title_of i)) pre ∧
  (news_section sample_engine (pre ++ item :: post)).2
  = raise match item !! "title", item !! "publisher" with
          | None, _ => KeyError "title"
          | Some _, None => KeyError "publisher"
          | Some _, Some _ => TypeError
          end.
Proof.
  intros item pre post.
  assert (Hlen : (length pre < 5)%nat) by (vm_compute; lia).
  assert (Hpre : Forall well_formed_item pre).
  { repeat constructor; eexists _, _; split; reflexivity. }
  assert (Hbad : ¬ well_formed_item item).
  { intros (t & p & _ & Hp). vm_compute in Hp. discriminate. }
  split; [exact Hlen|]. split; [exact Hpre|]. split; [exact Hbad|].
  exact (news_stops_at_malformed_item sample_engine pre post item Hlen Hpre Hbad).
Defined.

Section Pages.

Context (yf_Ticker : string → Ticker) (engine : string → Q).

(** What the body of the [try] shows once the data has been fetched: no
    banner, or the invalid-ticker error alone; and of sentiments only those
    of the first headlines. *)
Lemma page_outcomes (ticker : string) info hist news :
  get_stock_data yf_Ticker ticker = mret (info, hist, news) →
  let run := page yf_Ticker engine ticker in
  (banners run.1 = [] ∨
   (run.2 = mret tt ∧
    banners run.1 = [st_error ("Invalid Ticker: '" +:+ ticker +:+
      "'. Please check the symbol and exchange (e.g., use .NS for NSE).")])) ∧
  sentiments run.1
    `prefix_of` map (λ item, get_sentiment engine (title_of item)) (take 5 news).
Proof.
  intros Hget. cbv zeta.
  destruct (bool_decide (info = ∅) || is_None (get info "longName" PyNone)) eqn:E.
  { apply invalid_record_test in E.
    rewrite (page_invalid _ _ _ _ _ _ Hget E).
    split; [right; split; reflexivity | apply prefix_nil]. }
  assert (Hval : ¬ invalid_record info)
    by (intros H; apply invalid_record_test in H; congruence).
  destruct (price_metrics info hist) as [e|m] eqn:Hm.
  { rewrite (page_metrics_failed _ _ _ _ _ _ _ Hget Hval Hm).
    split; [left; reflexivity | apply prefix_nil]. }
  destruct (get info "marketCap" (PyNum 0)) as [|cap|txt] eqn:Hcap.
  - rewrite (page_cap_failed _ _ _ _ _ _ _ Hget Hval Hm)
      by (rewrite Hcap; discriminate).
    split; [left; reflexivity | apply prefix_nil].
  - rewrite (page_valid_run _ _ _ _ _ _ _ _ Hget Hval Hm Hcap).
    destruct (news_section_any engine news) as [Hquiet Hpre].
    cbn [fst snd]. rewrite !banners_app, !sentiments_app, Hquiet. split.
    + left. destruct (news_section engine news).2; reflexivity.
    + cbn [sentiments app].
      destruct (news_section engine news).2; cbn [sentiments];
        rewrite app_nil_r; exact Hpre.
  - rewrite (page_cap_failed _ _ _ _ _ _ _ Hget Hval Hm)
      by (rewrite Hcap; discriminate).
    split; [left; reflexivity | apply prefix_nil].
Qed.

Lemma sentiments_of_app (text_input : string) :
  sentiments (app yf_Ticker engine text_input)
  = if bool_decide (upper text_input = "") then []
    else sentiments (page yf_Ticker engine (upper text_input)).1.
Proof.
  unfold app. cbn [truthy]. case_bool_decide; [reflexivity|]. cbn [negb].
  destruct (page yf_Ticker engine (upper text_input)) as [out [e|u]];
    rewrite !sentiments_app; cbn [fst sentiments app];
    rewrite ?app_nil_r; reflexivity.
Qed.

(** X11: Whatever the provider returns and whatever is typed, the page carries at
    most one error: none, or the invalid-ticker error alone, or one
    exception with its warning. *)
Theorem at_most_one_error (text_input : string) :
  let out := app yf_Ticker engine text_input in
  banners out = [] ∨
  banners out = [st_error ("Invalid Ticker: '" +:+ upper text_input +:+
    "'. Please check the symbol and exchange (e.g., use .NS for NSE).")] ∨
  ∃ e, banners out =
         [st_error_occurred e;
          st_warning "This could be due to an invalid ticker or a network issue. Please try again."].
Proof.
  cbv zeta. destruct (decide (upper text_input = "")) as [Hblank|Hne].
  { left. unfold app. cbn [truthy].
    rewrite (bool_decide_eq_true_2 _ Hblank). reflexivity. }
  rewrite (app_of_page _ _ _ Hne).
  destruct (get_stock_data yf_Ticker (upper text_input))
    as [e|[[info hist] news]] eqn:Hget.
  { rewrite (page_fetch_failed _ _ _ _ Hget). right; right. exists e. reflexivity. }
  pose proof (page_outcomes _ _ _ _ Hget) as [Hban _]. cbv zeta in Hban.
  destruct (page yf_Ticker engine (upper text_input)) as [out [e|[]]];
    cbn [fst snd] in Hban; rewrite !banners_app;
    destruct Hban as [Hq | [Hr Hb]]; try discriminate.
  - right; right. exists e. rewrite Hq. reflexivity.
  - left. rewrite Hq. reflexivity.
  - right; left. rewrite Hb. reflexivity.
Qed.

(** X12: Whatever the provider returns, the page shows at most five sentiments,
    and those it shows are the sentiments of the first headlines of the
    fetched news, in their order. *)
Theorem at_most_five_sentiments (text_input : string) :
  (length (sentiments (app yf_Ticker engine text_input)) ≤ 5)%nat ∧
  ∀ info hist news,
    get_stock_data yf_Ticker (upper text_input) = mret (info, hist, news) →
    sentiments (app yf_Ticker engine text_input)
      `prefix_of` map (λ item, get_sentiment engine (title_of item)) (take 5 news).
Proof.
  rewrite sentiments_of_app. case_bool_decide as Hblank.
  { split; [cbn; lia | intros; apply prefix_nil]. }
  assert (Hpre : ∀ info hist news,
            get_stock_data yf_Ticker (upper text_input) = mret (info, hist, news) →
            sentiments (page yf_Ticker engine (upper text_input)).1
              `prefix_of` map (λ item, get_sentiment engine (title_of item))
                              (take 5 news))
    by (intros info hist news Hget; apply (page_outcomes _ _ _ _ Hget)).
  split; [|exact Hpre].
  destruct (get_stock_data yf_Ticker (upper text_input))
    as [e|[[info hist] news]] eqn:Hget.
  - rewrite (page_fetch_failed _ _ _ _ Hget). cbn. lia.
  - specialize (Hpre info hist news eq_refl). apply prefix_length in Hpre.
    rewrite length_map, length_take in Hpre. lia.
Qed.

(** X13: A run on sound data: a record with a display name, numeric prices and a
    numeric market cap (or none), and news whose first five items are well
    formed.  The page is the header, the three metrics, the summary, the
    news and the links, in that order, and carries no error. *)
Theorem sound_data_page (text_input : string) info hist news (cp pc cap : num) :
  upper text_input ≠ "" →
  get_stock_data yf_Ticker (upper text_input) = mret (info, hist, news) →
  ¬ invalid_record info →
  current_price_of info = PyNum cp →
  previous_close_of info = PyNum pc →
  get info "marketCap" (PyNum 0) = PyNum cap →
  Forall well_formed_item (take 5 news) →
  ∃ m, price_metrics info hist = mret m ∧
    app yf_Ticker engine text_input =
      [st_title "🇮🇳 Personal Stock Analyzer";
       st_caption "A personalized tool to analyze price drops and market sentiment.";
       st_header (get info "longName" (PyStr "N/A"))
                 (get info "symbol" (PyStr "N/A"));
       st_metric "Current Price" (current_price m)
         [price_change m; percent_change m];
       st_metric "60-Day High" (high_60d m) [drop_from_high m];
       st_metric "Market Cap" (Num.div cap 1e7) [];
       st_divider;
       st_subheader "🏢 Core Competence";
       st_info (get info "longBusinessSummary"
                  (PyStr "No business summary available."));
       st_subheader "📰 Recent News & Sentiment"]
      ++ (if bool_decide (news = [])
          then [st_write "No recent news found."]
          else concat (map (item_widgets engine) (take 5 news)))
      ++ [st_divider;
          st_subheader "💼 Top Investor Activity (Bulk & Block Deals)";
          st_info (PyStr
            "Please check the official NSE website for the most accurate data.");
          st_markdown_deals (before_dot (upper text_input));
          st_divider;
          st_caption "Disclaimer: This is an informational tool, not financial advice. Always do your own research (DYOR)."] ∧
    banners (app yf_Ticker engine text_input) = [].
Proof.
  intros Hne Hget Hval Hcp Hpc Hcap Hwf.
  pose proof (price_metrics_numeric info hist cp pc Hcp Hpc) as Hm.
  eexists. split; [exact Hm|].
  assert (Happ := app_of_page yf_Ticker engine text_input Hne).
  rewrite (page_valid_run _ _ _ _ _ _ _ _ Hget Hval Hm Hcap) in Happ.
  rewrite (news_section_well_formed engine news Hwf) in Happ.
  unfold mret, exc_ret in Happ. cbn [fst snd] in Happ. rewrite Happ. split.
  - rewrite <- !app_assoc. reflexivity.
  - rewrite !banners_app.
    assert (Hnews : banners (if bool_decide (news = [])
                             then [st_write "No recent news found."]
                             else concat (map (item_widgets engine) (take 5 news)))
                    = [])
      by (case_bool_decide; [reflexivity | apply banners_concat_items]).
    cbn [app]. change (banners (?w :: ?out)) with (banners ([w] ++ out)).
    rewrite !banners_app, Hnews. reflexivity.
Qed.

End Pages.

Lemma sound_data_page_witness :
  let provider := fixed_provider reliance_capitalised scenario_history seven_headlines in
  upper "reliance.ns" ≠ "" ∧
  ¬ invalid_record reliance_capitalised ∧
  Forall well_formed_item (take 5 seven_headlines) ∧
  ∃ m, price_metrics reliance_capitalised scenario_history = mret m ∧
    app provider sample_engine "reliance.ns" =
      [st_title "🇮🇳 Personal Stock Analyzer";
       st_caption "A personalized tool to analyze price drops and market sentiment.";
       st_header (get reliance_capitalised "longName" (PyStr "N/A"))
                 (get reliance_capitalised "symbol" (PyStr "N/A"));
       st_metric "Current Price" (current_price m)
         [price_change m; percent_change m];
       st_metric "60-Day High" (high_60d m) [drop_from_high m];
       st_metric "Market Cap" (Num.div (Fin 170000000000000) 1e7) [];
       st_divider;
       st_subheader "🏢 Core Competence";
       st_info (get reliance_capitalised "longBusinessSummary"
                  (PyStr "No business summary available."));
       st_subheader "📰 Recent News & Sentiment"]
      ++ (if bool_decide (seven_headlines = [])
          then [st_write "No recent news found."]
          else concat (map (item_widgets sample_engine) (take 5 seven_headlines)))
      ++ [st_divider;
          st_subheader "💼 Top Investor Activity (Bulk & Block Deals)";
          st_info (PyStr
            "Please check the official NSE website for the most accurate data.");
          st_markdown_deals (before_dot (upper "reliance.ns"));
          st_divider;
          st_caption "Disclaimer: This is an informational tool, not financial advice. Always do your own research (DYOR)."] ∧
    banners (app provider sample_engine "reliance.ns") = [].
Proof.
  intros provider.
  assert (Hne : upper "reliance.ns" ≠ "") by (vm_compute; discriminate).
  assert (Hval : ¬ invalid_record reliance_capitalised)
    by (rewrite invalid_record_test; vm_compute; discriminate).
  assert (Hwf : Forall well_formed_item (take 5 seven_headlines)).
  { repeat constructor; eexists _, _; split; reflexivity. }
  split; [exact Hne|]. split; [exact Hval|]. split; [exact Hwf|].
  exact (sound_data_page provider sample_engine "reliance.ns"
           reliance_capitalised scenario_history seven_headlines
           (Fin 2500) (Fin 2400) (Fin 170000000000000)
           Hne eq_refl Hval eq_refl eq_refl eq_refl Hwf).
Defined.

(** ** The order of the labels *)

(** X14: A higher score never gets a lower label: in the order Negative, Neutral,
    Positive, the label does not go down when the score goes up. *)
Theorem sentiment_monotone (engine engine' : string → Q) (text text' : string) :
  engine text <= engine' text' →
  (label_rank (get_sentiment engine text).1.1
   ≤ label_rank (get_sentiment engine' text').1.1)%nat.
Proof.
  intros Hle.
  destruct (get_sentiment_cases engine text)
    as [[Hs ->] | [[Hs ->] | (Hlo & Hhi & ->)]];
    destruct (get_sentiment_cases engine' text')
      as [[Hs' ->] | [[Hs' ->] | (Hlo' & Hhi' & ->)]];
    cbn; try lia; exfalso; lra.
Qed.

Lemma sentiment_monotone_witness :
  sample_engine "Regulator opens probe" <= sample_engine "Board meets on Tuesday" ∧
  (label_rank (get_sentiment sample_engine "Regulator opens probe").1.1
   ≤ label_rank (get_sentiment sample_engine "Board meets on Tuesday").1.1)%nat.
Proof.
  assert (Hle : sample_engine "Regulator opens probe"
                <= sample_engine "Board meets on Tuesday") by (vm_compute; discriminate).
  split; [exact Hle|].
  exact (sentiment_monotone sample_engine sample_engine
           "Regulator opens probe" "Board meets on Tuesday" Hle).
Defined.

(** X15: The thresholds are symmetric: a text scored the opposite of another gets
    the opposite label, Positive for Negative and Negative for Positive,
    and Neutral for Neutral. *)
Theorem sentiment_mirror (engine engine' : string → Q) (text text' : string) :
  engine' text' == - engine text →
  (get_sentiment engine' text').1.1
  = opposite_label (get_sentiment engine text).1.1.
Proof.
  intros Hopp.
  destruct (get_sentiment_cases engine text)
    as [[Hs ->] | [[Hs ->] | (Hlo & Hhi & ->)]];
    destruct (get_sentiment_cases engine' text')
      as [[Hs' ->] | [[Hs' ->] | (Hlo' & Hhi' & ->)]];
    cbn; try reflexivity; exfalso; lra.
Qed.

Lemma sentiment_mirror_witness :
  sample_engine "Regulator opens probe" == - sample_engine "Record profit lifts outlook" ∧
  (get_sentiment sample_engine "Regulator opens probe").1.1
  = opposite_label (get_sentiment sample_engine "Record profit lifts outlook").1.1.
Proof.
  assert (Hopp : sample_engine "Regulator opens probe"
                 == - sample_engine "Record profit lifts outlook") by reflexivity.
  split; [exact Hopp|].
  exact (sentiment_mirror sample_engine sample_engine
           "Record profit lifts outlook" "Regulator opens probe" Hopp).
Defined.

(** ** The ticker text *)

Lemma upper_ascii_idempotent (c : Ascii.ascii) :
  upper_ascii (upper_ascii c) = upper_ascii c.
Proof. destruct c as [[] [] [] [] [] [] [] []]; reflexivity. Qed.

Lemma upper_idempotent (s : string) : upper (upper s) = upper s.
Proof.
  induction s as [|c s IH]; [reflexivity|].
  cbn [upper]. rewrite upper_ascii_idempotent, IH. reflexivity.
Qed.

Lemma upper_ascii_dot (c : Ascii.ascii) :
  Ascii.eqb (upper_ascii c) "."%char = Ascii.eqb c "."%char.
Proof. destruct c as [[] [] [] [] [] [] [] []]; reflexivity. Qed.

(** X16: The ticker box does not tell the case of letters apart: two inputs that
    differ only in the case of their letters give the same page, and so do
    an input and its upper-case form. *)
Theorem ticker_case_insensitive
    (yf_Ticker : string → Ticker) (engine : string → Q)
    (text_input text_input' : string) :
  upper text_input = upper text_input' →
  app yf_Ticker engine text_input = app yf_Ticker engine text_input' ∧
  app yf_Ticker engine (upper text_input) = app yf_Ticker engine text_input.
Proof.
  intros Hsame. unfold app. rewrite upper_idempotent, Hsame. split; reflexivity.
Qed.

Lemma ticker_case_insensitive_witness :
  let provider := fixed_provider reliance scenario_history seven_headlines in
  upper "reliance.ns" = upper "Reliance.NS" ∧
  app provider sample_engine "reliance.ns" = app provider sample_engine "Reliance.NS" ∧
  app provider sample_engine (upper "reliance.ns")
  = app provider sample_engine "reliance.ns".
Proof.
  intros provider.
  assert (Hsame : upper "reliance.ns" = upper "Reliance.NS") by reflexivity.
  split; [exact Hsame|].
  exact (ticker_case_insensitive provider sample_engine
           "reliance.ns" "Reliance.NS" Hsame).
Defined.

(** X17: The symbol put into the exchange links is the ticker up to its first
    dot: it has no dot, the ticker is it alone or it followed by a dot and
    the rest, and taking it commutes with upper-casing. *)
Theorem plain_symbol_is_ticker_before_dot (ticker : string) :
  (∀ c, In c (list_ascii_of_string (before_dot ticker)) → c ≠ "."%char) ∧
  (ticker = before_dot ticker ∨
   ∃ rest, ticker = before_dot ticker +:+ "." +:+ rest) ∧
  before_dot (upper ticker) = upper (before_dot ticker).
Proof.
  induction ticker as [|c s (IHdot & IHsplit & IHup)].
  - split; [intros c []|]. split; [left|]; reflexivity.
  - cbn [before_dot upper]. rewrite upper_ascii_dot.
    destruct (Ascii.eqb c ".") eqn:E.
    + apply Ascii.eqb_eq in E as ->.
      split; [intros c []|]. split; [|reflexivity].
      right. exists s. reflexivity.
    + split; [|split].
      * intros c' [<- | Hin]; [|apply IHdot, Hin].
        intros ->. rewrite Ascii.eqb_refl in E. discriminate.
      * destruct IHsplit as [Heq | (rest & Heq)].
        -- left. f_equal. exact Heq.
        -- right. exists rest.
           change (String c (before_dot s) +:+ "." +:+ rest)
             with (String c (before_dot s +:+ "." +:+ rest)).
           f_equal. exact Heq.
      * cbn [upper]. rewrite IHup. reflexivity.
Qed.
